(** * RADHE-KRISHNA backend: credentials, session gate and per-user storage

  A shallow embedding of [src/index.js] (an Express application with a
  JSON credential file, cookie sessions and an S3-compatible bucket) and
  the properties of its authentication and key-naming scheme. *)

From Stdlib Require Import ZArith NArith Lia List Bool Ascii String.
From Stdlib Require Import Numbers.DecimalString Numbers.DecimalN.
From stdpp Require Import base option gmap strings.

Local Open Scope string_scope.

#[local] Arguments String.append : simpl nomatch.

(** ** JavaScript strings

  Strings are sequences of code units; [s.length], [s.charCodeAt(i)] and
  [s.slice(start, end)] are the operations the program relies on (through
  [path.basename]). *)

Module JsString.

Definition slash : ascii := "/"%char.

(** [s.charCodeAt(i) === CHAR_FORWARD_SLASH] *)
Definition isSlashAt (s : string) (i : nat) : bool :=
  match String.get i s with
  | Some c => Ascii.eqb c slash
  | None => false
  end.

(** [s.slice(start, end)] for [0 <= start], [0 <= end] *)
Definition slice (s : string) (start end_ : nat) : string :=
  String.substring start (end_ - start) s.

(** The string contains no path separator. *)
Fixpoint noSlash (s : string) : bool :=
  match s with
  | EmptyString => true
  | String c r => negb (Ascii.eqb c slash) && noSlash r
  end.

(** Template-literal rendering ([`${n}`]) of a non-negative integer, as
  for the millisecond counts [Date.now()] returns. *)
Definition ofNumber (n : N) : string := NilZero.string_of_uint (N.to_uint n).

End JsString.

(** ** [path.basename] (Node's POSIX implementation, no suffix argument)

  The loop walks the path from its last character: trailing separators are
  skipped, [end] marks the end of the last component, and the walk stops at
  the first separator met after that. *)

Module Path.
Import JsString.

Record scan := { start : nat; end_ : option nat; matchedSlash : bool }.

(** [basename_loop path n st] runs the iterations [i = n-1, ..., 0]. *)
Fixpoint basename_loop (path : string) (n : nat) (st : scan) : scan :=
  match n with
  | O => st
  | S i =>
      if isSlashAt path i then
        if negb (matchedSlash st)
        then {| start := i + 1; end_ := end_ st; matchedSlash := matchedSlash st |}
        else basename_loop path i st
      else
        match end_ st with
        | None =>
            basename_loop path i
              {| start := start st; end_ := Some (i + 1); matchedSlash := false |}
        | Some _ => basename_loop path i st
        end
  end.

Definition basename (path : string) : string :=
  let st := basename_loop path (String.length path)
              {| start := 0; end_ := None; matchedSlash := true |} in
  match end_ st with
  | None => ""
  | Some e => slice path (start st) e
  end.

End Path.

(** ** Storage keys (the routes' template literals) *)

Module Keys.
Import JsString.

(** [`${username}/${Date.now()}-${req.file.originalname}`] *)
Definition uploadKey (username : string) (now : N) (originalname : string) : string :=
  username +:+ "/" +:+ ofNumber now +:+ "-" +:+ originalname.

(** [req.session.user.username + "/"] *)
Definition listPrefix (username : string) : string := username +:+ "/".

(** [`${req.session.user.username}/${req.params.name}`] *)
Definition fileKey (username name : string) : string := username +:+ "/" +:+ name.

End Keys.

(** Following the specification's words for the display name: the stored
  key with the leading username-and-separator prefix stripped. The
  program itself calls [Path.basename]. *)
Definition displayName_spec (username key : string) : string :=
  JsString.slice key (String.length (Keys.listPrefix username)) (String.length key).

(** ** JavaScript values met by the credential code

  [users[username]] yields [undefined], a stored string, or a member that
  the parsed object inherits from [Object.prototype] (a function, or the
  prototype object itself for [__proto__]). *)

Module Js.

Inductive Error :=
| Err (message : string)
| TypeError (message : string).

Definition message (e : Error) : string :=
  match e with Err m | TypeError m => m end.

Inductive value :=
| Undefined
| Str (s : string)
| Inherited (name : string).

(** [typeof v] *)
Definition typeof (v : value) : string :=
  match v with
  | Undefined => "undefined"
  | Str _ => "string"
  | Inherited name => if String.eqb name "__proto__" then "object" else "function"
  end.

(** [!!v] *)
Definition truthy (v : value) : bool :=
  match v with
  | Undefined => false
  | Str s => negb (String.eqb s "")
  | Inherited _ => true
  end.

(** The property names every ordinary object inherits. *)
Definition Object_prototype : list string :=
  [ "constructor"; "__proto__"; "hasOwnProperty"; "isPrototypeOf";
    "propertyIsEnumerable"; "toLocaleString"; "toString"; "valueOf";
    "__defineGetter__"; "__defineSetter__"; "__lookupGetter__";
    "__lookupSetter__" ].

Definition inherited (k : string) : bool :=
  existsb (String.eqb k) Object_prototype.

(** [o[k]] on an object produced by [JSON.parse] with string members:
  own members first, then the prototype. *)
Definition get (o : gmap string string) (k : string) : value :=
  match o !! k with
  | Some v => Str v
  | None => if inherited k then Inherited k else Undefined
  end.

(** [o[k] = v] for a string [v]: a data member is written, except that
  assigning a primitive through the inherited [__proto__] accessor does
  nothing. *)
Definition set (o : gmap string string) (k v : string) : gmap string string :=
  match o !! k with
  | None => if String.eqb k "__proto__" then o else <[k := v]> o
  | Some _ => <[k := v]> o
  end.

(** JSON documents the routes send with [res.json]: flat objects, or
  arrays of strings. *)
Inductive Scalar :=
| JNull
| JBool (b : bool)
| JStr (s : string).

Inductive Json :=
| JObj (members : list (string * Scalar))
| JArr (items : list string).

End Js.

(** ** bcryptjs

  The hashing primitive is an external library, taken through its
  interface: [digest] is what [bcrypt.hash]/[bcrypt.hashSync] return for a
  password, a cost and the salt drawn for that call; [verify] is
  [bcrypt.compare] on two strings. *)

Class Bcrypt := {
  digest : string -> N -> string -> string;
  verify : string -> string -> bool;
  verify_digest : forall password rounds salt,
    verify password (digest password rounds salt) = true;
  digest_nonempty : forall password rounds salt,
    digest password rounds salt <> "";
}.

(** [bcrypt.compare(s, hash)]: the promise rejects unless both arguments
  are strings. *)
Definition bcrypt_compare {hasher : Bcrypt} (s : string) (hash : Js.value) : Js.Error + bool :=
  match hash with
  | Js.Str h => inr (verify s h)
  | _ => inl (Js.Err ("Illegal arguments: string, " +:+ Js.typeof hash))
  end.

(** ** What a route does with a request *)

Inductive Outcome :=
| Responded (status : Z) (body : Js.Json)   (* [res.status(status).json(body)] *)
| Rejected (e : Js.Error)                   (* the handler threw; it wrote no response *)
| NextError (e : Js.Error).                 (* a middleware called [next(err)] *)

(** [res.json(body)]: the status stays at its default. *)
Definition res_json (body : Js.Json) : Outcome := Responded 200 body.

Definition success (b : bool) : Js.Json := Js.JObj [("success", Js.JBool b)].

Definition failure (error : string) : Js.Json :=
  Js.JObj [("success", Js.JBool false); ("error", Js.JStr error)].

(** ** Sessions ([req.session]) *)

Record SessionUser := { su_username : string }.

Record Session := { user : option SessionUser }.

(** [!!req.session.user]: an object is always truthy. *)
Definition logged_in (s : Session) : bool :=
  match user s with Some _ => true | None => false end.

(** ** The credential store ([users.json]) and the routes that use it

  The file system maps a path to the object its JSON text denotes;
  [JSON.parse] after [JSON.stringify] returns an object with the same
  string members, so the text itself is not represented. *)

Module Auth.

Definition USERS_FILE : string := "./users.json".

Record State := {
  fs : gmap string (gmap string string);
  session : Session;
}.

(** The salts the hashing calls of one request draw: [boot] by the
  [hashSync] of [loadUsers], [fresh] by the [hash] of [addUser]. *)
Record Entropy := { boot : string; fresh : string }.

Inductive Completion (A : Type) :=
| Normal (a : A)
| Throw (e : Js.Error).
Arguments Normal {A} a.
Arguments Throw {A} e.

(** Computations over the server state that may throw. *)
Definition M (A : Type) : Type := State -> Completion A * State.

#[global] Instance M_ret : MRet M := fun A a st => (Normal a, st).

#[global] Instance M_bind : MBind M := fun A B f m st =>
  match m st with
  | (Normal a, st') => f a st'
  | (Throw e, st') => (Throw e, st')
  end.

Definition throw {A} (e : Js.Error) : M A := fun st => (Throw e, st).

(** [try { body } catch (e) { handler }] *)
Definition try_catch {A} (body : M A) (handler : Js.Error -> M A) : M A := fun st =>
  match body st with
  | (Normal a, st') => (Normal a, st')
  | (Throw e, st') => handler e st'
  end.

Definition existsSync (path : string) : M bool := fun st =>
  (Normal (bool_decide (is_Some (fs st !! path))), st).

Definition writeFileSync (path : string) (data : gmap string string) : M unit := fun st =>
  (Normal tt, {| fs := <[path := data]> (fs st); session := session st |}).

Definition readFileSync (path : string) : M (gmap string string) := fun st =>
  match fs st !! path with
  | Some data => (Normal data, st)
  | None => (Throw (Js.Err ("ENOENT: no such file or directory, open '" +:+ path +:+ "'")), st)
  end.

(** [req.session.user = u] *)
Definition set_session_user (u : SessionUser) : M unit := fun st =>
  (Normal tt, {| fs := fs st; session := {| user := Some u |} |}).

(** [req.session.destroy(...)] *)
Definition destroy_session : M unit := fun st =>
  (Normal tt, {| fs := fs st; session := {| user := None |} |}).

Section WithBcrypt.
Context {hasher : Bcrypt}.

Definition loadUsers (e : Entropy) : M (gmap string string) :=
  present ← existsSync USERS_FILE;
  (if negb present
   then writeFileSync USERS_FILE {[ "admin" := digest "r" 10 (boot e) ]}
   else mret tt);;
  readFileSync USERS_FILE.

Definition saveUsers (users : gmap string string) : M unit :=
  writeFileSync USERS_FILE users.

(** The record [{ username, password: users[username] }]. *)
Record UserRecord := { ur_username : string; ur_password : Js.value }.

Definition findUser (e : Entropy) (username : string) : M (option UserRecord) :=
  users ← loadUsers e;
  if negb (Js.truthy (Js.get users username)) then mret None
  else mret (Some {| ur_username := username; ur_password := Js.get users username |}).

Definition addUser (e : Entropy) (username password : string) : M SessionUser :=
  users ← loadUsers e;
  if Js.truthy (Js.get users username) then throw (Js.Err "User already exists")
  else
    saveUsers (Js.set users username (digest password 10 (fresh e)));;
    mret {| su_username := username |}.

(** [req.body] of the two credential routes. *)
Record Credentials := { username : string; password : string }.

(** [POST /register] *)
Definition register (e : Entropy) (body : Credentials) : M Outcome :=
  try_catch
    (created ← addUser e (username body) (password body);
     set_session_user {| su_username := su_username created |};;
     mret (res_json (success true)))
    (fun err => mret (Responded 400 (failure (Js.message err)))).

(** [POST /login] *)
Definition login (e : Entropy) (body : Credentials) : M Outcome :=
  found ← findUser e (username body);
  match found with
  | None => mret (Responded 401 (success false))
  | Some u =>
      match bcrypt_compare (password body) (ur_password u) with
      | inl err => throw err
      | inr ok =>
          if negb ok then mret (Responded 401 (success false))
          else
            set_session_user {| su_username := ur_username u |};;
            mret (res_json (success true))
      end
  end.

(** [POST /logout] *)
Definition logout : M Outcome :=
  destroy_session;;
  mret (res_json (success true)).

(** A route's handler run on a state: an exception that escapes the
  handler leaves the request without a response from it. *)
Definition serve (h : M Outcome) (st : State) : Outcome * State :=
  match h st with
  | (Normal o, st') => (o, st')
  | (Throw e, st') => (Rejected e, st')
  end.

(** The credentials on file, as [loadUsers] would return them. *)
Definition stored (e : Entropy) (st : State) : gmap string string :=
  match fs st !! USERS_FILE with
  | Some users => users
  | None => {[ "admin" := digest "r" 10 (boot e) ]}
  end.

End WithBcrypt.

End Auth.

(** ** Object storage and the file routes *)

Module Files.
Import JsString.

(** A [Buffer]: its length and its bytes by index. *)
Record Buffer := { byteLength : N; byteAt : N -> Byte.byte }.

(** [{ Key }] entries of a listing, and the listing itself
  ([Contents] is absent when nothing matches). *)
Record ObjectSummary := { Key : string }.

Record ListObjectsV2Output := { Contents : option (list ObjectSummary) }.

(** The calls the routes await: [s3.send(new ...Command(...))] and
  [getSignedUrl(s3, new GetObjectCommand(...), { expiresIn })], indexed by
  what a fulfilled promise carries. *)
Inductive Storage : Type -> Type :=
| PutObjectCommand (Bucket Key : string) (Body : Buffer) (ContentType : string) : Storage unit
| ListObjectsV2Command (Bucket Prefix : string) : Storage ListObjectsV2Output
| DeleteObjectCommand (Bucket Key : string) : Storage unit
| SignGetObjectCommand (Bucket Key : string) (expiresIn : N) : Storage string.

(** Handler bodies: a response, an awaited storage call with the code
  that resumes on fulfilment or rejection, or a [console.error]. *)
Inductive io (A : Type) : Type :=
| Ret (a : A)
| Await {X : Type} (call : Storage X) (k : Js.Error + X -> io A)
| ConsoleError (e : Js.Error) (k : io A).
Arguments Ret {A} a.
Arguments Await {A X} call k.
Arguments ConsoleError {A} e k.

(** One multipart file part under the field name [file]. *)
Record Part := { filename : string; contentType : string; content : Buffer }.

(** [req.file] as multer's memory storage fills it. *)
Record UploadedFile := {
  originalname : string;
  mimetype : string;
  buffer : Buffer;
  size : N;
}.

Record Request := {
  req_session : Session;
  params_name : string;        (* [req.params.name] *)
  file_part : option Part;     (* the part multer is asked to accept *)
  now : N;                     (* what [Date.now()] returns *)
}.

(** [limits: { fileSize: 25 * 1024 * 1024 }] *)
Definition fileSize : N := 25 * 1024 * 1024.

(** The file object multer's memory storage builds from a part. *)
Definition memory_file (p : Part) : UploadedFile :=
  {| originalname := filename p; mimetype := contentType p;
     buffer := content p; size := byteLength (content p) |}.

(** [upload.single("file")]: a part longer than [limits.fileSize] ends the
  request with [next(err)]; otherwise [req.file] is set (or left
  undefined when the request carries no file) and the chain goes on. *)
Definition upload_single (req : Request) (next : option UploadedFile -> io Outcome)
  : io Outcome :=
  match file_part req with
  | None => next None
  | Some p =>
      if (fileSize <? byteLength (content p))%N
      then Ret (NextError (Js.Err "File too large"))
      else next (Some (memory_file p))
  end.

(** [requireLogin] *)
Definition requireLogin (req : Request) (next : io Outcome) : io Outcome :=
  if negb (logged_in (req_session req))
  then Ret (Responded 401 (failure "Login required"))
  else next.

(** Reading a member of [undefined]. *)
Definition undefined_member (member : string) : Js.Error :=
  Js.TypeError ("Cannot read properties of undefined (reading '" +:+ member +:+ "')").

(** [req.session.user.username], then the rest of the handler. *)
Definition with_username (req : Request) (k : string -> io Outcome) : io Outcome :=
  match user (req_session req) with
  | None => Ret (Rejected (undefined_member "username"))
  | Some u => k (su_username u)
  end.

Section Routes.
Variable BUCKET : string.

(** [POST /upload], after the two middlewares *)
Definition upload_handler (req : Request) (file : option UploadedFile) : io Outcome :=
  with_username req (fun username =>
    match file with
    | None => Ret (Rejected (undefined_member "originalname"))
    | Some f =>
        let key := Keys.uploadKey username (now req) (originalname f) in
        Await (PutObjectCommand BUCKET key (buffer f) (mimetype f)) (fun r =>
          match r with
          | inr _ => Ret (res_json (success true))
          | inl err => ConsoleError err (Ret (Responded 500 (failure "Upload failed")))
          end)
    end).

(** [GET /files] *)
Definition files_handler (req : Request) : io Outcome :=
  with_username req (fun username =>
    let prefix := Keys.listPrefix username in
    Await (ListObjectsV2Command BUCKET prefix) (fun r =>
      match r with
      | inr data =>
          let files := map (fun f => Path.basename (Key f)) (default [] (Contents data)) in
          Ret (res_json (Js.JArr files))
      | inl err => ConsoleError err (Ret (Responded 500 (Js.JArr [])))
      end)).

(** [GET /file/:name] *)
Definition download_handler (req : Request) : io Outcome :=
  with_username req (fun username =>
    let key := Keys.fileKey username (params_name req) in
    Await (SignGetObjectCommand BUCKET key 3600) (fun r =>
      match r with
      | inr url => Ret (res_json (Js.JObj [("url", Js.JStr url)]))
      | inl err => ConsoleError err (Ret (Responded 500 (Js.JObj [("url", Js.JNull)])))
      end)).

(** [DELETE /file/:name] *)
Definition delete_handler (req : Request) : io Outcome :=
  with_username req (fun username =>
    let key := Keys.fileKey username (params_name req) in
    Await (DeleteObjectCommand BUCKET key) (fun r =>
      match r with
      | inr _ => Ret (res_json (success true))
      | inl err => ConsoleError err (Ret (Responded 500 (success false)))
      end)).

(** The four routes registered behind the session gate. *)
Inductive FileRoute := PostUpload | GetFiles | GetFile | DeleteFile.

Definition route (r : FileRoute) (req : Request) : io Outcome :=
  match r with
  | PostUpload => requireLogin req (upload_single req (upload_handler req))
  | GetFiles => requireLogin req (files_handler req)
  | GetFile => requireLogin req (download_handler req)
  | DeleteFile => requireLogin req (delete_handler req)
  end.

End Routes.

(** *** Running a route against a storage backend *)

(** What the process did besides answering: storage calls and log lines. *)
Inductive Event :=
| Called {X : Type} (call : Storage X)
| Logged (e : Js.Error).

Record S3Object := { Body : Buffer; ContentType : string }.

(** A backend answers a call from the bucket's contents and may change
  them; the bucket is the list of its objects in key order. *)
Definition Backend : Type :=
  forall X, Storage X -> list (string * S3Object) -> (Js.Error + X) * list (string * S3Object).

Fixpoint run {A} (be : Backend) (p : io A) (b : list (string * S3Object))
  : A * list (string * S3Object) * list Event :=
  match p with
  | Ret a => (a, b, [])
  | Await call k =>
      let '(r, b1) := be _ call b in
      let '(a, b2, evs) := run be (k r) b1 in
      (a, b2, Called call :: evs)
  | ConsoleError e k =>
      let '(a, b1, evs) := run be k b in
      (a, b1, Logged e :: evs)
  end.

(** **** A bucket that behaves: objects in key order, listings by prefix

  [ListObjectsV2] answers with the keys that start with [Prefix], in key
  order, at most [MaxKeys] (1000 by default) of them. *)

Fixpoint put (key : string) (o : S3Object) (b : list (string * S3Object))
  : list (string * S3Object) :=
  match b with
  | [] => [(key, o)]
  | (k, o') :: r =>
      match String.compare key k with
      | Lt => (key, o) :: b
      | Eq => (key, o) :: r
      | Gt => (k, o') :: put key o r
      end
  end.

Fixpoint remove (key : string) (b : list (string * S3Object)) : list (string * S3Object) :=
  match b with
  | [] => []
  | (k, o) :: r => if String.eqb key k then remove key r else (k, o) :: remove key r
  end.

Fixpoint keys_under (prefix : string) (b : list (string * S3Object)) : list string :=
  match b with
  | [] => []
  | (k, _) :: r =>
      if String.prefix prefix k then k :: keys_under prefix r else keys_under prefix r
  end.

Definition MaxKeys : nat := 1000.

Definition list_objects (prefix : string) (b : list (string * S3Object)) : ListObjectsV2Output :=
  match take MaxKeys (keys_under prefix b) with
  | [] => {| Contents := None |}
  | ks => {| Contents := Some (map (fun k => {| Key := k |}) ks) |}
  end.

Definition presigned (endpoint bucket key : string) (expiresIn : N) : string :=
  endpoint +:+ "/" +:+ bucket +:+ "/" +:+ key +:+ "?X-Amz-Expires=" +:+ ofNumber expiresIn.

Definition bucket_backend (endpoint : string) : Backend := fun X call b =>
  match call in Storage X return (Js.Error + X) * list (string * S3Object) with
  | PutObjectCommand _ key body ctype => (inr tt, put key {| Body := body; ContentType := ctype |} b)
  | ListObjectsV2Command _ prefix => (inr (list_objects prefix b), b)
  | DeleteObjectCommand _ key => (inr tt, remove key b)
  | SignGetObjectCommand bucket key expiresIn => (inr (presigned endpoint bucket key expiresIn), b)
  end.

(** The bucket a route leaves behind on that backend, and its answer. *)
Definition bucket_after (endpoint : string) (p : io Outcome) (b : list (string * S3Object))
  : list (string * S3Object) :=
  snd (fst (run (bucket_backend endpoint) p b)).

Definition answer (endpoint : string) (p : io Outcome) (b : list (string * S3Object))
  : Outcome :=
  fst (fst (run (bucket_backend endpoint) p b)).

(** A backend every call to which is rejected with [err]. *)
Definition failing_backend (err : Js.Error) : Backend := fun X call b => (inl err, b).

(** What a route answers when the storage call it awaits is rejected with
  [err]: the error goes to [console.error] and [o] is sent. *)
Definition answers_rejection (p : io Outcome) (err : Js.Error) (o : Outcome) : Prop :=
  exists (X : Type) (call : Storage X) (k : Js.Error + X -> io Outcome),
    p = Await call k /\ k (inl err) = ConsoleError err (Ret o).

(** The length of the body, when the route starts with a [PutObject]. *)
Definition put_length (p : io Outcome) : option N :=
  match p with
  | Await call _ =>
      match call with
      | PutObjectCommand _ _ body _ => Some (byteLength body)
      | _ => None
      end
  | _ => None
  end.

End Files.

(** ** An instance of the hashing interface

  It keeps the password in the clear behind two characters of the salt.
  It shows that the interface is inhabited and lets the routes run on
  examples; it makes no claim of being a hash. *)

Definition salt_tag (salt : string) : ascii * ascii :=
  match salt with
  | String a (String b _) => (a, b)
  | String a EmptyString => (a, "."%char)
  | EmptyString => ("."%char, "."%char)
  end.

Definition plain_bcrypt : Bcrypt := {|
  digest password rounds salt :=
    String (fst (salt_tag salt)) (String (snd (salt_tag salt)) password);
  verify password h :=
    match h with
    | String _ (String _ p) => String.eqb p password
    | _ => false
    end;
  verify_digest password rounds salt := String.eqb_refl password;
  digest_nonempty password rounds salt := ltac:(discriminate);
|}.

(** ** Example data *)

Definition as_user (username : string) : Session :=
  {| user := Some {| su_username := username |} |}.

Definition small_buffer : Files.Buffer :=
  {| Files.byteLength := 10; Files.byteAt := fun _ => Byte.x61 |}.

(** A logged-in request carrying a ten-byte file. *)
Definition upload_request (username name : string) (t : N) : Files.Request := {|
  Files.req_session := as_user username;
  Files.params_name := "";
  Files.file_part := Some {| Files.filename := name; Files.contentType := "text/plain";
                             Files.content := small_buffer |};
  Files.now := t;
|}.

(** A logged-in request without a file part, for the routes on [:name]. *)
Definition plain_request (username name : string) (t : N) : Files.Request := {|
  Files.req_session := as_user username;
  Files.params_name := name;
  Files.file_part := None;
  Files.now := t;
|}.

Definition anonymous_request : Files.Request := {|
  Files.req_session := {| user := None |};
  Files.params_name := "1700000000000-a.txt";
  Files.file_part := None;
  Files.now := 1700000000000;
|}.

(** A part one byte over the limit. *)
Definition oversized_part : Files.Part := {|
  Files.filename := "big.bin";
  Files.contentType := "application/octet-stream";
  Files.content := {| Files.byteLength := 26214401; Files.byteAt := fun _ => Byte.x00 |};
|}.

Definition oversized_request : Files.Request := {|
  Files.req_session := as_user "alice";
  Files.params_name := "";
  Files.file_part := Some oversized_part;
  Files.now := 1700000000000;
|}.

Definition one_file_bucket : list (string * Files.S3Object) :=
  [("alice/1700000000000-a.txt",
    {| Files.Body := small_buffer; Files.ContentType := "text/plain" |})].

Definition example_entropy : Auth.Entropy := {| Auth.boot := "s0"; Auth.fresh := "s1" |}.

Definition later_entropy : Auth.Entropy := {| Auth.boot := "s2"; Auth.fresh := "s3" |}.

(** No credential file yet, nobody logged in. *)
Definition fresh_state : Auth.State := {| Auth.fs := ∅; Auth.session := {| user := None |} |}.

(** A credential file holding only the default account. *)
Definition admin_state : Auth.State := {|
  Auth.fs := {[ Auth.USERS_FILE := {[ "admin" := "s0r" ]} ]};
  Auth.session := {| user := None |};
|}.

(** After ["alice"] has registered with ["pw1"] on [fresh_state]. *)
Definition alice_state : Auth.State := {|
  Auth.fs := {[ Auth.USERS_FILE := {[ "admin" := "s0r"; "alice" := "s1pw1" ]} ]};
  Auth.session := as_user "alice";
|}.

(** ** The CORS origin check

  The function given as [origin] to [cors({ origin, credentials: true })]:
  [callback(null, true)] is [inr true] and [callback(err)] is [inl err].
  The request may carry no [Origin] header. *)

Module Cors.

Definition allowedOrigins : list string :=
  [ "https://jogendradipeng11-png.github.io";
    "https://radhe-krishna-h7lq.onrender.com" ].

(** [list.includes(x)] on strings *)
Definition includes (l : list string) (x : string) : bool :=
  existsb (String.eqb x) l.

(** [!origin]: no header, or an empty one. *)
Definition no_origin (o : option string) : bool :=
  match o with
  | None => true
  | Some s => String.eqb s ""
  end.

Definition origin (o : option string) : Js.Error + bool :=
  if no_origin o then inr true
  else if includes allowedOrigins (default "" o) then inr true
  else inl (Js.Err "CORS Not Allowed").

End Cors.

(** ** Reading the storage calls of a run *)

(** The bucket a call names, and the key (or key prefix) it addresses. *)
Definition call_bucket {X : Type} (c : Files.Storage X) : string :=
  match c with
  | Files.PutObjectCommand bucket _ _ _ => bucket
  | Files.ListObjectsV2Command bucket _ => bucket
  | Files.DeleteObjectCommand bucket _ => bucket
  | Files.SignGetObjectCommand bucket _ _ => bucket
  end.

Definition call_key {X : Type} (c : Files.Storage X) : string :=
  match c with
  | Files.PutObjectCommand _ key _ _ => key
  | Files.ListObjectsV2Command _ prefix => prefix
  | Files.DeleteObjectCommand _ key => key
  | Files.SignGetObjectCommand _ key _ => key
  end.

(** The storage calls among the events, in number. *)
Fixpoint storage_calls (evs : list Files.Event) : nat :=
  match evs with
  | [] => 0
  | Files.Called _ :: r => S (storage_calls r)
  | Files.Logged _ :: r => storage_calls r
  end.

(** Every storage call among the events names [bucket] and addresses a
  key under [prefix]. *)
Fixpoint confined (bucket prefix : string) (evs : list Files.Event) : Prop :=
  match evs with
  | [] => True
  | Files.Called call :: r =>
      call_bucket call = bucket /\ String.prefix prefix (call_key call) = true /\
      confined bucket prefix r
  | Files.Logged _ :: r => confined bucket prefix r
  end.

(** The events of a route run on a backend. *)
Definition events_of (be : Files.Backend) (p : Files.io Outcome)
    (b : list (string * Files.S3Object)) : list Files.Event :=
  snd (Files.run be p b).

(** The keys a bucket holds. *)
Definition bucket_keys (b : list (string * Files.S3Object)) : list string := map fst b.

(** Requests that name a listed entry. *)
Definition delete_entry_request : Files.Request :=
  plain_request "alice" "1700000000000-a.txt" 1700000000002.

Definition nested_delete_request : Files.Request :=
  plain_request "a" "b/1700000000000-x.txt" 1700000000002.

(** * Properties *)

(** ** The definitions on examples *)

Example basename_plain : Path.basename "alice/1700000000000-a.txt" = "1700000000000-a.txt".
Proof. reflexivity. Qed.

Example basename_nested : Path.basename "alice/dir/f.txt" = "f.txt".
Proof. reflexivity. Qed.

Example basename_trailing : Path.basename "alice/dir//" = "dir".
Proof. reflexivity. Qed.

Example basename_only_slashes : Path.basename "///" = "".
Proof. reflexivity. Qed.

Example uploadKey_example :
  Keys.uploadKey "alice" 1700000000000 "a.txt" = "alice/1700000000000-a.txt".
Proof. reflexivity. Qed.

Example get_constructor :
  Js.get {[ "admin" := "s0r" ]} "constructor" = Js.Inherited "constructor".
Proof. reflexivity. Qed.

Example get_unknown : Js.get {[ "admin" := "s0r" ]} "alice" = Js.Undefined.
Proof. reflexivity. Qed.

Example register_on_fresh_state :
  Auth.serve (Auth.register (hasher := plain_bcrypt) example_entropy
                {| Auth.username := "alice"; Auth.password := "pw1" |}) fresh_state
  = (res_json (success true), alice_state).
Proof. vm_compute. reflexivity. Qed.

(** The scenario of a first session: upload a ten-byte [a.txt], list,
  ask for a link, delete, list again. *)
Example file_round_trip :
  let ep := "https://s3.example" in
  let up := Files.route "bucket" Files.PostUpload (upload_request "alice" "a.txt" 1700000000000) in
  let ls := Files.route "bucket" Files.GetFiles (plain_request "alice" "" 1700000000001) in
  let named := plain_request "alice" "1700000000000-a.txt" 1700000000002 in
  let b1 := Files.bucket_after ep up [] in
  let b2 := Files.bucket_after ep (Files.route "bucket" Files.DeleteFile named) b1 in
  Files.answer ep up [] = res_json (success true) /\
  Files.answer ep ls b1 = res_json (Js.JArr ["1700000000000-a.txt"]) /\
  Files.answer ep (Files.route "bucket" Files.GetFile named) b1
    = res_json (Js.JObj [("url", Js.JStr
        "https://s3.example/bucket/alice/1700000000000-a.txt?X-Amz-Expires=3600")]) /\
  Files.answer ep (Files.route "bucket" Files.DeleteFile named) b1 = res_json (success true) /\
  Files.answer ep ls b2 = res_json (Js.JArr []).
Proof. repeat split; reflexivity. Qed.

(** ** Strings *)

Section StringFacts.
Import JsString.

Lemma noSlash_head (c : ascii) (s : string) :
  noSlash (String c s) = true -> c <> slash /\ noSlash s = true.
Proof.
  simpl. intros Hc. apply andb_true_iff in Hc as [Hc Hs]. split; [|exact Hs].
  intros ->. rewrite Ascii.eqb_refl in Hc. discriminate.
Qed.

Lemma length_append (s t : string) :
  String.length (s +:+ t) = String.length s + String.length t.
Proof. induction s as [|c s IH]; simpl; [reflexivity | now rewrite IH]. Qed.

Lemma get_append_right (s t : string) (j : nat) :
  String.get (String.length s + j) (s +:+ t) = String.get j t.
Proof. induction s as [|c s IH]; simpl; [reflexivity | exact IH]. Qed.

Lemma substring_all (s : string) : String.substring 0 (String.length s) s = s.
Proof. induction s as [|c s IH]; simpl; [reflexivity | now rewrite IH]. Qed.

Lemma substring_append_right (s t : string) :
  String.substring (String.length s) (String.length t) (s +:+ t) = t.
Proof. induction s as [|c s IH]; simpl; [apply substring_all | exact IH]. Qed.

Lemma isSlashAt_noSlash (s : string) (j : nat) : noSlash s = true -> isSlashAt s j = false.
Proof.
  unfold isSlashAt. revert j. induction s as [|c s IH]; intros j Hs.
  - destruct j; reflexivity.
  - apply noSlash_head in Hs as [Hc Hs]. destruct j as [|j]; simpl.
    + now apply Ascii.eqb_neq.
    + now apply IH.
Qed.

Lemma prefix_cons_iff (a b : ascii) (s t : string) :
  String.prefix (String a s) (String b t) = true <-> a = b /\ String.prefix s t = true.
Proof.
  cbn [String.prefix]. destruct (ascii_dec a b) as [Hab|Hab]; split.
  - now intros Hp.
  - now intros [_ Hp].
  - discriminate.
  - now intros [Heq _].
Qed.

(** Two slash-free names followed by a separator: one is a prefix of the
  other only when they are the same name. *)
Lemma prefix_separated (u2 u1 rest : string) :
  noSlash u1 = true -> noSlash u2 = true ->
  String.prefix (u2 +:+ "/") (u1 +:+ "/" +:+ rest) = true -> u1 = u2.
Proof.
  revert u1. induction u2 as [|c2 u2 IH]; intros [|c1 u1] H1 H2 Hp;
    cbn [String.append] in Hp.
  - reflexivity.
  - apply noSlash_head in H1 as [Hc _].
    apply prefix_cons_iff in Hp as [Heq _]. now destruct Hc.
  - apply noSlash_head in H2 as [Hc _].
    apply prefix_cons_iff in Hp as [Heq _]. now destruct Hc.
  - apply noSlash_head in H1 as [_ H1]. apply noSlash_head in H2 as [_ H2].
    apply prefix_cons_iff in Hp as [-> Hp].
    f_equal. now apply IH.
Qed.

Lemma length_nonempty (s : string) : s <> "" -> exists k, String.length s = S k.
Proof. destruct s as [|c s]; [congruence | intros _; now exists (String.length s)]. Qed.

Lemma append_assoc (s t r : string) : (s +:+ t) +:+ r = s +:+ t +:+ r.
Proof. induction s as [|c s IH]; simpl; [reflexivity | now rewrite IH]. Qed.

End StringFacts.

(** ** [path.basename] on a key whose last component follows a separator *)

Section Basename.
Import JsString Path.
Variables (pre rest : string).
Hypothesis rest_noSlash : noSlash rest = true.

Let path := pre +:+ String slash rest.

Lemma isSlashAt_separator : isSlashAt path (String.length pre) = true.
Proof.
  unfold isSlashAt, path. rewrite <- (Nat.add_0_r (String.length pre)).
  rewrite get_append_right. reflexivity.
Qed.

Lemma isSlashAt_component (j : nat) : isSlashAt path (String.length pre + S j) = false.
Proof.
  unfold isSlashAt, path. rewrite get_append_right. simpl.
  now apply isSlashAt_noSlash.
Qed.

(** Once the end of the component is marked, the walk runs down to the
  separator and stops there. *)
Lemma basename_loop_component (m : nat) (st : scan) (e : nat) :
  end_ st = Some e -> matchedSlash st = false ->
  basename_loop path (String.length pre + S m) st =
  {| start := String.length pre + 1; end_ := Some e; matchedSlash := false |}.
Proof.
  intros He Hm. induction m as [|m IH].
  - replace (String.length pre + 1) with (S (String.length pre)) by lia.
    cbn [basename_loop]. rewrite isSlashAt_separator, Hm, He.
    cbn [negb]. f_equal. lia.
  - replace (String.length pre + S (S m)) with (S (String.length pre + S m)) by lia.
    cbn [basename_loop]. rewrite isSlashAt_component, He. exact IH.
Qed.

Lemma substring_component :
  String.substring (String.length pre + 1) (String.length rest) path = rest.
Proof.
  unfold path. clear rest_noSlash. induction pre as [|c s IH]; simpl.
  - apply substring_all.
  - exact IH.
Qed.

Lemma basename_component : rest <> "" -> basename path = rest.
Proof.
  intros Hne. destruct (length_nonempty rest Hne) as [k Hk].
  unfold basename.
  assert (Hlen : String.length path = S (String.length pre + S k)).
  { unfold path. rewrite length_append. simpl. lia. }
  rewrite Hlen. cbn [basename_loop].
  rewrite isSlashAt_component. cbn [end_].
  rewrite (basename_loop_component _ _ (String.length pre + S k + 1)) by reflexivity.
  cbn [end_ start]. unfold slice.
  replace (String.length pre + S k + 1 - (String.length pre + 1))
    with (String.length rest) by lia.
  apply substring_component.
Qed.

End Basename.

(** ** The session gate *)

Section Gate.
Import Files.
Variable BUCKET : string.

Lemma requireLogin_anonymous (req : Request) (next : io Outcome) :
  user (req_session req) = None ->
  requireLogin req next = Ret (Responded 401 (failure "Login required")).
Proof. unfold requireLogin, logged_in. now intros ->. Qed.

Lemma requireLogin_passes (req : Request) (next : io Outcome) (u : SessionUser) :
  user (req_session req) = Some u -> requireLogin req next = next.
Proof. unfold requireLogin, logged_in. now intros ->. Qed.

(** C2: a request whose session carries no user is answered
  [401 {success:false, error:"Login required"}] by each of the four file
  routes, and running the route performs no storage call (and writes no
  log line) whatever the backend is. *)
Theorem gated_routes_require_login (r : FileRoute) (req : Request) :
  user (req_session req) = None ->
  route BUCKET r req = Ret (Responded 401 (failure "Login required")) /\
  forall (be : Backend) (b : list (string * S3Object)),
    run be (route BUCKET r req) b = (Responded 401 (failure "Login required"), b, []).
Proof.
  intros Hanon.
  assert (Hroute : route BUCKET r req = Ret (Responded 401 (failure "Login required"))).
  { destruct r; cbn [route]; now apply requireLogin_anonymous. }
  split; [exact Hroute|]. intros be b. now rewrite Hroute.
Qed.

End Gate.

Lemma gated_routes_require_login_witness :
  Files.route "bucket" Files.DeleteFile anonymous_request
    = Files.Ret (Responded 401 (failure "Login required")) /\
  forall (be : Files.Backend) (b : list (string * Files.S3Object)),
    Files.run be (Files.route "bucket" Files.DeleteFile anonymous_request) b
      = (Responded 401 (failure "Login required"), b, []).
Proof. apply (gated_routes_require_login "bucket" Files.DeleteFile anonymous_request). reflexivity. Defined.

(** ** Storage failures, missing files and the size limit *)

Section FileRoutes.
Import Files.
Variable BUCKET : string.

Lemma answers_rejection_run (p : io Outcome) (err : Js.Error) (o : Outcome)
    (b : list (string * S3Object)) :
  answers_rejection p err o ->
  exists ev, run (failing_backend err) p b = (o, b, [ev; Logged err]).
Proof.
  intros (X & call & k & -> & Hk). exists (Called call).
  cbn [run failing_backend]. rewrite Hk. reflexivity.
Qed.

Lemma upload_single_accepts (req : Request) (p : Part) (next : option UploadedFile -> io Outcome) :
  file_part req = Some p -> (byteLength (content p) <= fileSize)%N ->
  upload_single req next = next (Some (memory_file p)).
Proof.
  intros Hp Hle. unfold upload_single. rewrite Hp.
  destruct (N.ltb_spec fileSize (byteLength (content p))); [lia | reflexivity].
Qed.

Lemma upload_single_rejects (req : Request) (p : Part) (next : option UploadedFile -> io Outcome) :
  file_part req = Some p -> (fileSize < byteLength (content p))%N ->
  upload_single req next = Ret (NextError (Js.Err "File too large")).
Proof.
  intros Hp Hlt. unfold upload_single. rewrite Hp.
  destruct (N.ltb_spec fileSize (byteLength (content p))); [reflexivity | lia].
Qed.

(** C6: for a logged-in request and any error [err] a storage call is
  rejected with, [GET /files] answers [500 []] and [GET /file/:name]
  answers [500 {url: null}], while [POST /upload] (with an accepted
  file) answers [500 {success:false, error:"Upload failed"}] and
  [DELETE /file/:name] answers [500 {success:false}]; in each case the
  error itself only reaches [console.error]. *)
Theorem storage_failure_responses (req : Request) (u : SessionUser) (err : Js.Error) :
  user (req_session req) = Some u ->
  answers_rejection (route BUCKET GetFiles req) err (Responded 500 (Js.JArr [])) /\
  answers_rejection (route BUCKET GetFile req) err
    (Responded 500 (Js.JObj [("url", Js.JNull)])) /\
  answers_rejection (route BUCKET DeleteFile req) err (Responded 500 (success false)) /\
  forall p : Part,
    file_part req = Some p -> (byteLength (content p) <= fileSize)%N ->
    answers_rejection (route BUCKET PostUpload req) err
      (Responded 500 (failure "Upload failed")).
Proof.
  intros Hu. unfold answers_rejection. repeat split.
  - cbn [route]. rewrite (requireLogin_passes _ _ u Hu).
    unfold files_handler, with_username. rewrite Hu. eauto.
  - cbn [route]. rewrite (requireLogin_passes _ _ u Hu).
    unfold download_handler, with_username. rewrite Hu. eauto.
  - cbn [route]. rewrite (requireLogin_passes _ _ u Hu).
    unfold delete_handler, with_username. rewrite Hu. eauto.
  - intros p Hp Hle. cbn [route]. rewrite (requireLogin_passes _ _ u Hu).
    rewrite (upload_single_accepts _ p _ Hp Hle).
    unfold upload_handler, with_username. rewrite Hu. eauto.
Qed.

(** C9: a logged-in [POST /upload] without a file part makes the handler
  throw a [TypeError] (reading [originalname] of [undefined]) before its
  [try] block: no response is written by the handler, in particular not
  the [{success:false}] one, and no storage call is made. *)
Theorem upload_without_file_throws (req : Request) (u : SessionUser) :
  user (req_session req) = Some u -> file_part req = None ->
  route BUCKET PostUpload req = Ret (Rejected (undefined_member "originalname")) /\
  forall (be : Backend) (b : list (string * S3Object)),
    run be (route BUCKET PostUpload req) b
      = (Rejected (undefined_member "originalname"), b, []).
Proof.
  intros Hu Hfile.
  assert (Hroute : route BUCKET PostUpload req
                   = Ret (Rejected (undefined_member "originalname"))).
  { cbn [route]. rewrite (requireLogin_passes _ _ u Hu).
    unfold upload_single. rewrite Hfile.
    unfold upload_handler, with_username. now rewrite Hu. }
  split; [exact Hroute|]. intros be b. now rewrite Hroute.
Qed.

(** C10: [limits.fileSize] is [25 * 1024 * 1024 = 26214400] bytes. A
  request whose file part is longer never reaches the handler: the route
  ends without a storage call, with multer's error for a logged-in
  request (and with the gate's 401 otherwise). Conversely every
  [PutObject] the route sends carries a body of at most that many
  bytes. *)
Theorem upload_size_limit (req : Request) :
  fileSize = 26214400%N /\
  (forall p : Part,
     file_part req = Some p -> (fileSize < byteLength (content p))%N ->
     route BUCKET PostUpload req
       = Ret (if logged_in (req_session req)
              then NextError (Js.Err "File too large")
              else Responded 401 (failure "Login required"))) /\
  (forall (bucket key ctype : string) (body : Buffer) (k : Js.Error + unit -> io Outcome),
     route BUCKET PostUpload req = Await (PutObjectCommand bucket key body ctype) k ->
     (byteLength body <= 25 * 1024 * 1024)%N).
Proof.
  split; [reflexivity|]. split.
  - intros p Hp Hlt. cbn [route]. unfold requireLogin.
    destruct (logged_in (req_session req)); cbn [negb]; [|reflexivity].
    now apply upload_single_rejects with (p := p).
  - intros bucket key ctype body k. cbn [route]. unfold requireLogin.
    destruct (logged_in (req_session req)); cbn [negb]; [|discriminate].
    unfold upload_single. destruct (file_part req) as [p|].
    + destruct (N.ltb_spec fileSize (byteLength (content p))) as [Hlt|Hle]; [discriminate|].
      unfold upload_handler, with_username.
      destruct (user (req_session req)); [|discriminate].
      intros Heq. apply (f_equal put_length) in Heq. cbn [put_length buffer] in Heq.
      injection Heq as <-. exact Hle.
    + unfold upload_handler, with_username.
      destruct (user (req_session req)); discriminate.
Qed.

End FileRoutes.

(** ** Listings: isolation between users and display names *)

Section Listings.
Import JsString Files.
Variables (BUCKET endpoint : string).

Lemma displayName_spec_strips (username rest : string) :
  displayName_spec username (Keys.listPrefix username +:+ rest) = rest.
Proof.
  unfold displayName_spec, slice. rewrite length_append.
  replace (String.length (Keys.listPrefix username) + String.length rest
           - String.length (Keys.listPrefix username)) with (String.length rest) by lia.
  apply substring_append_right.
Qed.

Lemma keys_under_put_outside (prefix key : string) (o : S3Object)
    (b : list (string * S3Object)) :
  String.prefix prefix key = false ->
  keys_under prefix (put key o b) = keys_under prefix b.
Proof.
  intros Hout. induction b as [|[k o'] r IH]; cbn [put keys_under].
  - now rewrite Hout.
  - destruct (String.compare key k) eqn:Hcmp; cbn [keys_under].
    + apply String.compare_eq_iff in Hcmp as <-. now rewrite Hout.
    + now rewrite Hout.
    + now rewrite IH.
Qed.

Lemma keys_under_sound (prefix key : string) (b : list (string * S3Object)) :
  In key (keys_under prefix b) -> String.prefix prefix key = true.
Proof.
  induction b as [|[k o] r IH]; cbn [keys_under]; [intros []|].
  destruct (String.prefix prefix k) eqn:Hk; [|exact IH].
  intros [<-|Hin]; [exact Hk | now apply IH].
Qed.

Lemma upload_key_outside (u1 u2 : string) (now : N) (name : string) :
  u1 <> u2 -> noSlash u1 = true -> noSlash u2 = true ->
  String.prefix (Keys.listPrefix u2) (Keys.uploadKey u1 now name) = false.
Proof.
  intros Hne H1 H2. unfold Keys.listPrefix, Keys.uploadKey.
  destruct (String.prefix _ _) eqn:Hp; [|reflexivity].
  apply prefix_separated in Hp; [congruence | assumption..].
Qed.

(** C1 (amended): for two different usernames that contain no ["/"],
  every key [POST /upload] builds for the first lies outside the listing
  prefix of the second; so whatever the first user's upload request does
  to the bucket, the second user's [GET /files] answers as it did
  before. *)
Theorem upload_outside_other_listing (req1 req2 : Request) (u1 u2 : string)
    (b : list (string * S3Object)) :
  user (req_session req1) = Some {| su_username := u1 |} ->
  user (req_session req2) = Some {| su_username := u2 |} ->
  u1 <> u2 -> noSlash u1 = true -> noSlash u2 = true ->
  (forall (t : N) (name : string),
     String.prefix (Keys.listPrefix u2) (Keys.uploadKey u1 t name) = false) /\
  (forall (t : N) (name : string) (b' : list (string * S3Object)),
     ~ In (Keys.uploadKey u1 t name) (keys_under (Keys.listPrefix u2) b')) /\
  answer endpoint (route BUCKET GetFiles req2) (bucket_after endpoint (route BUCKET PostUpload req1) b)
    = answer endpoint (route BUCKET GetFiles req2) b.
Proof.
  intros Hu1 Hu2 Hne H1 H2.
  assert (Hout : forall t name,
            String.prefix (Keys.listPrefix u2) (Keys.uploadKey u1 t name) = false).
  { intros t name. now apply upload_key_outside. }
  split; [exact Hout|]. split.
  { intros t name b' Hin. apply keys_under_sound in Hin. now rewrite Hout in Hin. }
  assert (Hlist : forall b1 b2,
            keys_under (Keys.listPrefix u2) b1 = keys_under (Keys.listPrefix u2) b2 ->
            answer endpoint (route BUCKET GetFiles req2) b1 = answer endpoint (route BUCKET GetFiles req2) b2).
  { intros b1 b2 Hk. unfold answer. cbn [route].
    rewrite (requireLogin_passes _ _ _ Hu2).
    unfold files_handler, with_username. rewrite Hu2.
    cbn [run bucket_backend su_username fst]. unfold list_objects. now rewrite Hk. }
  apply Hlist. unfold bucket_after. cbn [route].
  rewrite (requireLogin_passes _ _ _ Hu1).
  unfold upload_single. destruct (file_part req1) as [p|].
  - destruct (fileSize <? byteLength (content p))%N; [reflexivity|].
    unfold upload_handler, with_username. rewrite Hu1.
    cbn [run bucket_backend su_username fst snd].
    now apply keys_under_put_outside.
  - unfold upload_handler, with_username. now rewrite Hu1.
Qed.

Lemma basename_under_prefix (username rest : string) :
  rest <> "" -> noSlash rest = true ->
  Path.basename (Keys.listPrefix username +:+ rest) = rest.
Proof.
  intros Hne Hrest. unfold Keys.listPrefix. rewrite append_assoc.
  now apply basename_component.
Qed.

(** C7 (amended): for a logged-in [GET /files] whose listing call is
  fulfilled, the answer is the array of [path.basename] of the listed
  keys, in the order of the listing. For a listed key made of the user's
  prefix and a non-empty remainder without ["/"], that entry is the
  remainder, which is also the key with the prefix stripped. *)
Theorem files_entries_are_basenames (req : Request) (u : string) (be : Backend)
    (b b' : list (string * S3Object)) (data : ListObjectsV2Output) :
  user (req_session req) = Some {| su_username := u |} ->
  be _ (ListObjectsV2Command BUCKET (Keys.listPrefix u)) b = (inr data, b') ->
  fst (fst (run be (route BUCKET GetFiles req) b))
    = res_json (Js.JArr (map (fun f => Path.basename (Key f)) (default [] (Contents data)))) /\
  forall (f : ObjectSummary) (rest : string),
    In f (default [] (Contents data)) ->
    Key f = Keys.listPrefix u +:+ rest -> rest <> "" -> noSlash rest = true ->
    Path.basename (Key f) = rest /\ displayName_spec u (Key f) = rest.
Proof.
  intros Hu Hbe. split.
  - cbn [route]. rewrite (requireLogin_passes _ _ _ Hu).
    unfold files_handler, with_username. rewrite Hu.
    cbn [run su_username]. rewrite Hbe. reflexivity.
  - intros f rest _ -> Hne Hrest. split.
    + now apply basename_under_prefix.
    + apply displayName_spec_strips.
Qed.

End Listings.

Section ListingExamples.
Import JsString Files.

(** C1 as stated fails: usernames are not restricted, and the key of a
  file uploaded by ["a/b"] starts with the listing prefix ["a/"] of the
  different user ["a"], whose [GET /files] then shows that file. *)
Lemma upload_inside_other_listing :
  "a/b" <> "a" /\
  String.prefix (Keys.listPrefix "a") (Keys.uploadKey "a/b" 1700000000000 "x.txt") = true /\
  answer "https://s3.example"
    (route "bucket" GetFiles (plain_request "a" "" 1700000000001))
    (bucket_after "https://s3.example"
       (route "bucket" PostUpload (upload_request "a/b" "x.txt" 1700000000000)) [])
  = res_json (Js.JArr ["1700000000000-x.txt"]).
Proof. split; [discriminate|]. split; reflexivity. Qed.

Lemma upload_outside_other_listing_witness :
  (forall (t : N) (name : string),
     String.prefix (Keys.listPrefix "bob") (Keys.uploadKey "alice" t name) = false) /\
  (forall (t : N) (name : string) (b' : list (string * S3Object)),
     ~ In (Keys.uploadKey "alice" t name) (keys_under (Keys.listPrefix "bob") b')) /\
  answer "https://s3.example"
    (route "bucket" GetFiles (plain_request "bob" "" 1700000000001))
    (bucket_after "https://s3.example"
       (route "bucket" PostUpload (upload_request "alice" "a.txt" 1700000000000)) [])
  = answer "https://s3.example" (route "bucket" GetFiles (plain_request "bob" "" 1700000000001)) [].
Proof.
  apply (upload_outside_other_listing "bucket" "https://s3.example"
           (upload_request "alice" "a.txt" 1700000000000)
           (plain_request "bob" "" 1700000000001) "alice" "bob" []);
    [reflexivity | reflexivity | discriminate | reflexivity | reflexivity].
Defined.

(** C7 as stated fails: the entry is the last component of the key, not
  the key without the user's prefix. After ["alice/dir"] uploads
  ["f.txt"], the listing of ["alice"] holds that key and answers
  ["1700000000000-f.txt"], while stripping ["alice/"] from the key leaves
  ["dir/1700000000000-f.txt"]. *)
Lemma listing_entry_not_stripped_key :
  keys_under (Keys.listPrefix "alice")
    (bucket_after "https://s3.example"
       (route "bucket" PostUpload (upload_request "alice/dir" "f.txt" 1700000000000)) [])
  = ["alice/dir/1700000000000-f.txt"] /\
  answer "https://s3.example"
    (route "bucket" GetFiles (plain_request "alice" "" 1700000000001))
    (bucket_after "https://s3.example"
       (route "bucket" PostUpload (upload_request "alice/dir" "f.txt" 1700000000000)) [])
  = res_json (Js.JArr ["1700000000000-f.txt"]) /\
  displayName_spec "alice" "alice/dir/1700000000000-f.txt" = "dir/1700000000000-f.txt" /\
  Path.basename "alice/dir/1700000000000-f.txt"
    <> displayName_spec "alice" "alice/dir/1700000000000-f.txt".
Proof. repeat split; try reflexivity. discriminate. Qed.

Lemma files_entries_are_basenames_witness :
  fst (fst (run (bucket_backend "https://s3.example")
              (route "bucket" GetFiles (plain_request "alice" "" 1700000000001)) one_file_bucket))
    = res_json (Js.JArr ["1700000000000-a.txt"]) /\
  forall (f : ObjectSummary) (rest : string),
    In f [{| Key := "alice/1700000000000-a.txt" |}] ->
    Key f = Keys.listPrefix "alice" +:+ rest -> rest <> "" -> noSlash rest = true ->
    Path.basename (Key f) = rest /\ displayName_spec "alice" (Key f) = rest.
Proof.
  apply (files_entries_are_basenames "bucket" (plain_request "alice" "" 1700000000001) "alice"
           (bucket_backend "https://s3.example") one_file_bucket one_file_bucket
           {| Contents := Some [{| Key := "alice/1700000000000-a.txt" |}] |});
    reflexivity.
Defined.

End ListingExamples.

Section RouteExamples.
Import Files.

Lemma storage_failure_responses_witness :
  answers_rejection (route "bucket" GetFiles (upload_request "alice" "a.txt" 1700000000000))
    (Js.Err "connect ECONNREFUSED") (Responded 500 (Js.JArr [])) /\
  answers_rejection (route "bucket" GetFile (upload_request "alice" "a.txt" 1700000000000))
    (Js.Err "connect ECONNREFUSED") (Responded 500 (Js.JObj [("url", Js.JNull)])) /\
  answers_rejection (route "bucket" DeleteFile (upload_request "alice" "a.txt" 1700000000000))
    (Js.Err "connect ECONNREFUSED") (Responded 500 (success false)) /\
  forall p : Part,
    file_part (upload_request "alice" "a.txt" 1700000000000) = Some p ->
    (byteLength (content p) <= fileSize)%N ->
    answers_rejection (route "bucket" PostUpload (upload_request "alice" "a.txt" 1700000000000))
      (Js.Err "connect ECONNREFUSED") (Responded 500 (failure "Upload failed")).
Proof.
  apply (storage_failure_responses "bucket" (upload_request "alice" "a.txt" 1700000000000)
           {| su_username := "alice" |} (Js.Err "connect ECONNREFUSED")).
  reflexivity.
Defined.

Lemma upload_without_file_throws_witness :
  route "bucket" PostUpload (plain_request "alice" "" 1700000000000)
    = Ret (Rejected (undefined_member "originalname")) /\
  forall (be : Backend) (b : list (string * S3Object)),
    run be (route "bucket" PostUpload (plain_request "alice" "" 1700000000000)) b
      = (Rejected (undefined_member "originalname"), b, []).
Proof.
  apply (upload_without_file_throws "bucket" (plain_request "alice" "" 1700000000000)
           {| su_username := "alice" |}); reflexivity.
Defined.

Lemma upload_size_limit_witness :
  route "bucket" PostUpload oversized_request = Ret (NextError (Js.Err "File too large")).
Proof.
  apply (proj1 (proj2 (upload_size_limit "bucket" oversized_request)) oversized_part);
    reflexivity.
Defined.

End RouteExamples.

(** ** The credential store *)

Section Credentials.
Import Auth.
Context {hasher : Bcrypt}.

Lemma loadUsers_present (e : Entropy) (st : State) (users : gmap string string) :
  fs st !! USERS_FILE = Some users -> loadUsers e st = (Normal users, st).
Proof.
  intros Hfile. unfold loadUsers, mbind, M_bind, existsSync, readFileSync.
  rewrite Hfile. rewrite bool_decide_eq_true_2 by eauto.
  cbn. now rewrite Hfile.
Qed.

Lemma loadUsers_absent (e : Entropy) (st : State) :
  fs st !! USERS_FILE = None ->
  loadUsers e st
    = (Normal {[ "admin" := digest "r" 10 (boot e) ]},
       {| fs := <[USERS_FILE := {[ "admin" := digest "r" 10 (boot e) ]}]> (fs st);
          session := session st |}).
Proof.
  intros Hfile. unfold loadUsers, mbind, M_bind, existsSync, readFileSync, writeFileSync.
  rewrite Hfile. rewrite bool_decide_eq_false_2 by (intros [? ?]; discriminate).
  cbn. now rewrite lookup_insert_eq.
Qed.

(** C8: without a credential file, [loadUsers] first writes one holding
  exactly the account [admin] with a hash of the password ["r"], and
  returns that one-entry mapping; with a file, it returns the file's
  mapping and leaves the file system (and the session) as they were. *)
Theorem loadUsers_default_account (e : Entropy) (st : State) :
  (fs st !! USERS_FILE = None ->
   loadUsers e st
     = (Normal {[ "admin" := digest "r" 10 (boot e) ]},
        {| fs := <[USERS_FILE := {[ "admin" := digest "r" 10 (boot e) ]}]> (fs st);
           session := session st |})) /\
  (forall users : gmap string string,
     fs st !! USERS_FILE = Some users -> loadUsers e st = (Normal users, st)).
Proof.
  split.
  - apply loadUsers_absent.
  - intros users. apply loadUsers_present.
Qed.

(** In either case [loadUsers] returns the [stored] mapping and leaves a
  file holding it. *)
Lemma loadUsers_stored (e : Entropy) (st : State) :
  exists st', loadUsers e st = (Normal (stored e st), st') /\
              fs st' !! USERS_FILE = Some (stored e st) /\ session st' = session st.
Proof.
  unfold stored. destruct (fs st !! USERS_FILE) as [users|] eqn:Hfile.
  - exists st. now rewrite (loadUsers_present e st users Hfile).
  - eexists. rewrite (loadUsers_absent e st Hfile). split; [reflexivity|].
    cbn. now rewrite lookup_insert_eq.
Qed.

Lemma addUser_taken (e : Entropy) (st st' : State) (users : gmap string string)
    (u p : string) :
  loadUsers e st = (Normal users, st') -> Js.truthy (Js.get users u) = true ->
  addUser e u p st = (Throw (Js.Err "User already exists"), st').
Proof.
  intros Hload Htaken. unfold addUser, mbind, M_bind. now rewrite Hload, Htaken.
Qed.

Lemma addUser_free (e : Entropy) (st st' : State) (users : gmap string string)
    (u p : string) :
  loadUsers e st = (Normal users, st') -> Js.truthy (Js.get users u) = false ->
  addUser e u p st
    = (Normal {| su_username := u |},
       {| fs := <[USERS_FILE := Js.set users u (digest p 10 (fresh e))]> (fs st');
          session := session st' |}).
Proof.
  intros Hload Hfree. unfold addUser, mbind, M_bind. rewrite Hload, Hfree. reflexivity.
Qed.

Lemma register_taken (e : Entropy) (st st' : State) (users : gmap string string)
    (u p : string) :
  loadUsers e st = (Normal users, st') -> Js.truthy (Js.get users u) = true ->
  serve (register e {| username := u; password := p |}) st
    = (Responded 400 (failure "User already exists"), st').
Proof.
  intros Hload Htaken. unfold serve, register, try_catch, mbind, M_bind. cbn [username password].
  now rewrite (addUser_taken e st st' users u p Hload Htaken).
Qed.

Lemma register_free (e : Entropy) (st st' : State) (users : gmap string string)
    (u p : string) :
  loadUsers e st = (Normal users, st') -> Js.truthy (Js.get users u) = false ->
  serve (register e {| username := u; password := p |}) st
    = (res_json (success true),
       {| fs := <[USERS_FILE := Js.set users u (digest p 10 (fresh e))]> (fs st');
          session := {| user := Some {| su_username := u |} |} |}).
Proof.
  intros Hload Hfree. unfold serve, register, try_catch, mbind, M_bind. cbn [username password].
  now rewrite (addUser_free e st st' users u p Hload Hfree).
Qed.

(** *** Member lookup on the parsed object *)

Lemma get_own (users : gmap string string) (u h : string) :
  users !! u = Some h -> Js.get users u = Js.Str h.
Proof. unfold Js.get. now intros ->. Qed.

Lemma get_inherited (users : gmap string string) (u : string) :
  users !! u = None -> Js.inherited u = true -> Js.get users u = Js.Inherited u.
Proof. unfold Js.get. now intros -> ->. Qed.

Lemma get_missing (users : gmap string string) (u : string) :
  users !! u = None -> Js.inherited u = false -> Js.get users u = Js.Undefined.
Proof. unfold Js.get. now intros -> ->. Qed.

Lemma truthy_digest (p salt : string) (rounds : N) :
  Js.truthy (Js.Str (digest p rounds salt)) = true.
Proof.
  cbn [Js.truthy]. apply negb_true_iff, String.eqb_neq, digest_nonempty.
Qed.

(** A name that reads as absent is written as an own member. *)
Lemma set_then_lookup (users : gmap string string) (u h : string) :
  Js.truthy (Js.get users u) = false -> Js.set users u h !! u = Some h.
Proof.
  unfold Js.get, Js.set. destruct (users !! u) as [v|] eqn:Hown.
  - intros _. apply lookup_insert_eq.
  - destruct (Js.inherited u) eqn:Hinh; [discriminate|]. intros _.
    destruct (String.eqb_spec u "__proto__") as [->|_]; [discriminate Hinh|].
    apply lookup_insert_eq.
Qed.

(** *** Registration *)

(** C5: when [POST /register] has succeeded for a username, a later
  [POST /register] for the same username (any password, any salt) is
  answered [400 {success:false, error:"User already exists"}] and leaves
  the whole state as it was; the credential file still maps the username
  to the hash the first registration computed. *)
Theorem second_register_rejected (e1 e2 : Entropy) (st st1 : State) (u p p' : string) :
  serve (register e1 {| username := u; password := p |}) st
    = (res_json (success true), st1) ->
  serve (register e2 {| username := u; password := p' |}) st1
    = (Responded 400 (failure "User already exists"), st1) /\
  exists users1 : gmap string string,
    fs st1 !! USERS_FILE = Some users1 /\ users1 !! u = Some (digest p 10 (fresh e1)).
Proof.
  intros Hfirst.
  destruct (loadUsers_stored e1 st) as (st' & Hload & _ & _).
  destruct (Js.truthy (Js.get (stored e1 st) u)) eqn:Hlook.
  - rewrite (register_taken e1 st st' _ u p Hload Hlook) in Hfirst. discriminate Hfirst.
  - rewrite (register_free e1 st st' _ u p Hload Hlook) in Hfirst.
    injection Hfirst as <-.
    set (users1 := Js.set (stored e1 st) u (digest p 10 (fresh e1))).
    assert (Hfile : fs {| fs := <[USERS_FILE := users1]> (fs st');
                          session := {| user := Some {| su_username := u |} |} |}
                      !! USERS_FILE = Some users1) by apply lookup_insert_eq.
    assert (Hu : users1 !! u = Some (digest p 10 (fresh e1))) by now apply set_then_lookup.
    split; [|now exists users1].
    apply (register_taken e2 _ _ users1).
    + now apply loadUsers_present.
    + rewrite (get_own _ _ _ Hu). apply truthy_digest.
Qed.

(** C3 (what the code does at the failing input): ["constructor"] is not
  a key of the credential mapping, yet [users["constructor"]] is the
  function every object inherits, so [POST /register] answers
  [400 {success:false, error:"User already exists"}], binds no session
  and adds nothing to the mapping. *)
Theorem register_inherited_name_rejected (e : Entropy) (st : State) (p : string) :
  stored e st !! "constructor" = None ->
  exists st' : State,
    serve (register e {| username := "constructor"; password := p |}) st
      = (Responded 400 (failure "User already exists"), st') /\
    session st' = session st /\ stored e st' = stored e st.
Proof.
  intros Habsent.
  destruct (loadUsers_stored e st) as (st' & Hload & Hfile & Hsess).
  exists st'. split; [|split; [exact Hsess|]].
  - apply (register_taken e st st' (stored e st)); [exact Hload|].
    now rewrite (get_inherited _ _ Habsent).
  - unfold stored at 1. now rewrite Hfile.
Qed.

(** *** Login *)

(** What [POST /login] answers, by what [users[username]] is. *)
Lemma login_outcome (e : Entropy) (st : State) (u p : string) :
  fst (serve (login e {| username := u; password := p |}) st)
  = match Js.get (stored e st) u with
    | Js.Undefined => Responded 401 (success false)
    | Js.Str h =>
        if String.eqb h "" then Responded 401 (success false)
        else if verify p h then res_json (success true)
        else Responded 401 (success false)
    | Js.Inherited name =>
        Rejected (Js.Err ("Illegal arguments: string, " +:+ Js.typeof (Js.Inherited name)))
    end.
Proof.
  destruct (loadUsers_stored e st) as (st' & Hload & _ & _).
  unfold serve, login, findUser, mbind, M_bind. cbn [username password]. rewrite Hload.
  destruct (Js.get (stored e st) u) as [|h|name]; cbn [Js.truthy negb].
  - reflexivity.
  - destruct (String.eqb h ""); cbn [negb]; [reflexivity|].
    cbn. destruct (verify p h); reflexivity.
  - reflexivity.
Qed.

(** C4 (what the code does at the failing input): ["constructor"] is not
  in the credential mapping, yet [findUser] returns a record whose
  [password] is the inherited function; [bcrypt.compare] rejects on it
  and the handler, which has no [try] block, answers nothing, in
  particular not 401. *)
Theorem login_inherited_name_rejects (e : Entropy) (st : State) (p : string) :
  stored e st !! "constructor" = None ->
  fst (serve (login e {| username := "constructor"; password := p |}) st)
    = Rejected (Js.Err "Illegal arguments: string, function").
Proof.
  intros Habsent. rewrite login_outcome. now rewrite (get_inherited _ _ Habsent).
Qed.

Lemma login_success (e : Entropy) (st : State) (users : gmap string string) (u p h : string) :
  fs st !! USERS_FILE = Some users -> users !! u = Some h -> h <> "" ->
  verify p h = true ->
  serve (login e {| username := u; password := p |}) st
    = (res_json (success true),
       {| fs := fs st; session := {| user := Some {| su_username := u |} |} |}).
Proof.
  intros Hfile Hu Hne Hok.
  unfold serve, login, findUser, mbind, M_bind. cbn [username password].
  rewrite (loadUsers_present e st users Hfile), (get_own _ _ _ Hu).
  cbn [Js.truthy]. apply String.eqb_neq in Hne. rewrite Hne. cbn. now rewrite Hok.
Qed.

(** For a username that is neither on file nor a member every object
  inherits, [POST /register] succeeds and binds the session to it, and a
  following [POST /login] with the same password succeeds and binds the
  session to the same username. *)
Theorem register_then_login (e e' : Entropy) (st : State) (u p : string) :
  stored e st !! u = None -> Js.inherited u = false ->
  exists st1 : State,
    serve (register e {| username := u; password := p |}) st
      = (res_json (success true), st1) /\
    user (session st1) = Some {| su_username := u |} /\
    exists st2 : State,
      serve (login e' {| username := u; password := p |}) st1
        = (res_json (success true), st2) /\
      user (session st2) = Some {| su_username := u |}.
Proof.
  intros Habsent Hplain.
  destruct (loadUsers_stored e st) as (st' & Hload & _ & _).
  assert (Hfree : Js.truthy (Js.get (stored e st) u) = false)
    by now rewrite (get_missing _ _ Habsent Hplain).
  eexists. split; [exact (register_free e st st' _ u p Hload Hfree)|].
  split; [reflexivity|].
  eexists. split.
  - apply (login_success e' _ (Js.set (stored e st) u (digest p 10 (fresh e)))
             u p (digest p 10 (fresh e))).
    + apply lookup_insert_eq.
    + now apply set_then_lookup.
    + apply digest_nonempty.
    + apply verify_digest.
  - reflexivity.
Qed.

(** [POST /login] answers [401 {success:false}] for a username that is
  neither on file nor inherited, and for a username on file when the
  password does not verify against the stored hash; it answers
  [{success:true}] only when the username is on file and the password
  verifies against its hash. *)
Theorem login_unauthorized (e : Entropy) (st : State) (u p : string) :
  (stored e st !! u = None -> Js.inherited u = false ->
   fst (serve (login e {| username := u; password := p |}) st)
     = Responded 401 (success false)) /\
  (forall h : string,
     stored e st !! u = Some h -> verify p h = false ->
     fst (serve (login e {| username := u; password := p |}) st)
       = Responded 401 (success false)) /\
  (fst (serve (login e {| username := u; password := p |}) st) = res_json (success true) ->
   exists h : string, stored e st !! u = Some h /\ verify p h = true).
Proof.
  rewrite login_outcome. repeat split.
  - intros Habsent Hplain. now rewrite (get_missing _ _ Habsent Hplain).
  - intros h Hu Hbad. rewrite (get_own _ _ _ Hu), Hbad. now destruct (String.eqb h "").
  - unfold Js.get. destruct (stored e st !! u) as [h|].
    + destruct (String.eqb h ""); [discriminate|].
      destruct (verify p h) eqn:Hok; [|discriminate]. intros _. now exists h.
    + destruct (Js.inherited u); discriminate.
Qed.

End Credentials.

Section CredentialExamples.
Import Auth.
#[local] Existing Instance plain_bcrypt.

Lemma loadUsers_default_account_witness :
  loadUsers example_entropy fresh_state
    = (Normal {[ "admin" := "s0r" ]},
       {| fs := <[USERS_FILE := {[ "admin" := "s0r" ]}]> ∅;
          session := {| user := None |} |}) /\
  loadUsers example_entropy alice_state
    = (Normal {[ "admin" := "s0r"; "alice" := "s1pw1" ]}, alice_state).
Proof.
  split.
  - exact (proj1 (loadUsers_default_account example_entropy fresh_state) eq_refl).
  - exact (proj2 (loadUsers_default_account example_entropy alice_state) _ eq_refl).
Defined.

Lemma second_register_rejected_witness :
  serve (register later_entropy {| username := "alice"; password := "pw2" |}) alice_state
    = (Responded 400 (failure "User already exists"), alice_state) /\
  exists users1 : gmap string string,
    fs alice_state !! USERS_FILE = Some users1 /\ users1 !! "alice" = Some "s1pw1".
Proof.
  refine (second_register_rejected example_entropy later_entropy fresh_state alice_state
            "alice" "pw1" "pw2" _).
  vm_compute. reflexivity.
Defined.

Lemma register_inherited_name_rejected_witness :
  exists st' : State,
    serve (register example_entropy {| username := "constructor"; password := "pw" |})
      admin_state
      = (Responded 400 (failure "User already exists"), st') /\
    session st' = session admin_state /\
    stored example_entropy st' = stored example_entropy admin_state.
Proof.
  refine (register_inherited_name_rejected example_entropy admin_state "pw" _). reflexivity.
Defined.

Lemma login_inherited_name_rejects_witness :
  fst (serve (login example_entropy {| username := "constructor"; password := "pw" |})
         admin_state)
    = Rejected (Js.Err "Illegal arguments: string, function").
Proof.
  refine (login_inherited_name_rejects example_entropy admin_state "pw" _). reflexivity.
Defined.

Lemma register_then_login_witness :
  exists st1 : State,
    serve (register example_entropy {| username := "alice"; password := "pw1" |}) fresh_state
      = (res_json (success true), st1) /\
    user (session st1) = Some {| su_username := "alice" |} /\
    exists st2 : State,
      serve (login later_entropy {| username := "alice"; password := "pw1" |}) st1
        = (res_json (success true), st2) /\
      user (session st2) = Some {| su_username := "alice" |}.
Proof.
  refine (register_then_login example_entropy later_entropy fresh_state "alice" "pw1" _ _);
    reflexivity.
Defined.

End CredentialExamples.

(** ** More on the credential routes *)

Section CredentialEffects.
Import Auth.
Context {hasher : Bcrypt}.


(** The state [register] leaves, by what [users[username]] reads as. *)
Lemma register_run (e : Entropy) (st : State) (u p : string) :
  exists st' : State,
    loadUsers e st = (Normal (stored e st), st') /\
    fs st' !! USERS_FILE = Some (stored e st) /\ session st' = session st /\
    serve (register e {| username := u; password := p |}) st
    = if Js.truthy (Js.get (stored e st) u)
      then (Responded 400 (failure "User already exists"), st')
      else (res_json (success true),
            {| fs := <[USERS_FILE := Js.set (stored e st) u (digest p 10 (fresh e))]> (fs st');
               session := {| user := Some {| su_username := u |} |} |}).
Proof.
  destruct (loadUsers_stored e st) as (st' & Hload & Hfile & Hsess).
  exists st'. repeat split; try assumption.
  destruct (Js.truthy (Js.get (stored e st) u)) eqn:Hlook.
  - now apply register_taken with (users := stored e st).
  - now apply register_free.
Qed.

Lemma stored_of_file (e : Entropy) (st : State) (users : gmap string string) :
  fs st !! USERS_FILE = Some users -> stored e st = users.
Proof. unfold stored. now intros ->. Qed.

Lemma set_other (users : gmap string string) (u v h : string) :
  v <> u -> Js.set users u h !! v = users !! v.
Proof.
  intros Hne. unfold Js.set.
  destruct (users !! u); [|destruct (String.eqb u "__proto__"); [reflexivity|]];
    now apply lookup_insert_ne.
Qed.


(** [POST /register] for one username never changes what is on file for
  another; when it fails it changes neither the credentials on file nor
  the session; when it succeeds the session is bound to the new
  username, whoever was logged in before. *)
Theorem register_frame (e e' : Entropy) (st : State) (u p : string) :
  (forall v : string,
     v <> u ->
     stored e' (snd (serve (register e {| username := u; password := p |}) st)) !! v
       = stored e st !! v) /\
  (fst (serve (register e {| username := u; password := p |}) st) <> res_json (success true) ->
   stored e' (snd (serve (register e {| username := u; password := p |}) st)) = stored e st /\
   session (snd (serve (register e {| username := u; password := p |}) st)) = session st) /\
  (fst (serve (register e {| username := u; password := p |}) st) = res_json (success true) ->
   user (session (snd (serve (register e {| username := u; password := p |}) st)))
     = Some {| su_username := u |}).
Proof.
  destruct (register_run e st u p) as (st' & _ & Hfile & Hsess & ->).
  destruct (Js.truthy (Js.get (stored e st) u)); cbn [fst snd].
  - rewrite (stored_of_file e' st' _ Hfile). split; [reflexivity|]. split.
    + intros _. now split.
    + discriminate.
  - rewrite (stored_of_file e' _ (Js.set (stored e st) u (digest p 10 (fresh e))))
      by apply lookup_insert_eq.
    split; [|split].
    + intros v Hne. now apply set_other.
    + intros Hne. now destruct Hne.
    + reflexivity.
Qed.

End CredentialEffects.

Section LoginEffects.
Import Auth.
Context {hasher : Bcrypt}.

(** The state [login] leaves: the one [loadUsers] leaves, with the
  session bound when the answer is [{success:true}]. *)
Lemma login_run (e : Entropy) (st : State) (u p : string) :
  exists st' : State,
    fs st' !! USERS_FILE = Some (stored e st) /\ session st' = session st /\
    (forall path : string, path <> USERS_FILE -> fs st' !! path = fs st !! path) /\
    ((fst (serve (login e {| username := u; password := p |}) st) = res_json (success true) /\
      snd (serve (login e {| username := u; password := p |}) st)
      = {| fs := fs st'; session := {| user := Some {| su_username := u |} |} |}) \/
     (fst (serve (login e {| username := u; password := p |}) st) <> res_json (success true) /\
      snd (serve (login e {| username := u; password := p |}) st) = st')).
Proof.
  assert (Hload : exists st' : State,
             loadUsers e st = (Normal (stored e st), st') /\
             fs st' !! USERS_FILE = Some (stored e st) /\ session st' = session st /\
             forall path : string, path <> USERS_FILE -> fs st' !! path = fs st !! path).
  { unfold stored. destruct (fs st !! USERS_FILE) as [users|] eqn:Hfile.
    - exists st. now rewrite (loadUsers_present e st users Hfile).
    - eexists. rewrite (loadUsers_absent e st Hfile). split; [reflexivity|].
      cbn [fs session]. rewrite lookup_insert_eq. repeat split.
      intros path Hne. now apply lookup_insert_ne. }
  destruct Hload as (st' & Hload & Hfile & Hsess & Hframe).
  exists st'. repeat split; try assumption.
  unfold serve, login, findUser, mbind, M_bind. cbn [username password]. rewrite Hload.
  destruct (Js.get (stored e st) u) as [|h|name]; cbn [Js.truthy negb].
  - right. cbn. now split.
  - destruct (String.eqb h ""); cbn [negb].
    + right. cbn. now split.
    + cbn. destruct (verify p h); cbn; [left | right]; now split.
  - right. cbn. now split.
Qed.


(** The default account: while there is no credential file, [POST /login]
  with the username [admin] and the password ["r"] succeeds; it creates
  the file with that single account and binds the session to [admin]. *)
Theorem default_admin_login (e : Entropy) (st : State) :
  fs st !! USERS_FILE = None ->
  serve (login e {| username := "admin"; password := "r" |}) st
  = (res_json (success true),
     {| fs := <[USERS_FILE := {[ "admin" := digest "r" 10 (boot e) ]}]> (fs st);
        session := {| user := Some {| su_username := "admin" |} |} |}).
Proof.
  intros Hnone.
  pose proof (loadUsers_absent e st Hnone) as Hload.
  unfold serve, login, findUser, mbind, M_bind. cbn [username password]. rewrite Hload.
  rewrite (get_own _ "admin" (digest "r" 10 (boot e))) by apply lookup_singleton_eq.
  rewrite truthy_digest. cbn. now rewrite verify_digest.
Qed.

End LoginEffects.

Section StoreAndSession.
Import Auth.

(** [saveUsers] then [loadUsers]: the mapping saved is the mapping read
  back, whatever the file held before (the file is overwritten as a
  whole, nothing is merged), and no other file and no session changes. *)
Theorem saveUsers_loadUsers {hasher : Bcrypt} (e : Entropy) (users previous : gmap string string)
    (st : State) :
  loadUsers e (snd (saveUsers users st)) = (Normal users, snd (saveUsers users st)) /\
  snd (saveUsers users (snd (saveUsers previous st))) = snd (saveUsers users st) /\
  (forall path : string,
     path <> USERS_FILE -> fs (snd (saveUsers users st)) !! path = fs st !! path) /\
  session (snd (saveUsers users st)) = session st.
Proof.
  unfold saveUsers, writeFileSync. cbn [snd fs session]. repeat split.
  - apply loadUsers_present. cbn [fs]. apply lookup_insert_eq.
  - now rewrite insert_insert_eq.
  - intros path Hne. now apply lookup_insert_ne.
Qed.

(** [POST /logout] always answers [{success:true}], logged in or not, and
  leaves the files alone; a request that carries the session it leaves
  is answered 401 by each of the four file routes. *)
Theorem logout_closes_gate (st : State) (BUCKET : string) (r : Files.FileRoute)
    (req : Files.Request) :
  Files.req_session req = session (snd (serve logout st)) ->
  fst (serve logout st) = res_json (success true) /\
  fs (snd (serve logout st)) = fs st /\
  Files.route BUCKET r req = Files.Ret (Responded 401 (failure "Login required")).
Proof.
  intros Hcarried. repeat split.
  destruct r; cbn [Files.route]; apply requireLogin_anonymous; now rewrite Hcarried.
Qed.

End StoreAndSession.

Lemma default_admin_login_witness :
  Auth.serve (Auth.login (hasher := plain_bcrypt) example_entropy
                {| Auth.username := "admin"; Auth.password := "r" |}) fresh_state
  = (res_json (success true),
     {| Auth.fs := <[Auth.USERS_FILE := {[ "admin" := "s0r" ]}]> ∅;
        Auth.session := as_user "admin" |}).
Proof.
  exact (default_admin_login (hasher := plain_bcrypt) example_entropy fresh_state eq_refl).
Defined.

Lemma logout_closes_gate_witness :
  fst (Auth.serve Auth.logout alice_state) = res_json (success true) /\
  Auth.fs (snd (Auth.serve Auth.logout alice_state)) = Auth.fs alice_state /\
  Files.route "bucket" Files.GetFiles anonymous_request
    = Files.Ret (Responded 401 (failure "Login required")).
Proof.
  exact (logout_closes_gate alice_state "bucket" Files.GetFiles anonymous_request eq_refl).
Defined.

(** ** Names shown by the listing address the uploaded object *)

Section ListedNames.
Import JsString.

Lemma noSlash_append (s t : string) : noSlash (s +:+ t) = noSlash s && noSlash t.
Proof.
  induction s as [|c s IH]; cbn [String.append noSlash]; [reflexivity|].
  now rewrite IH, andb_assoc.
Qed.

Lemma noSlash_digits (d : Decimal.uint) : noSlash (NilEmpty.string_of_uint d) = true.
Proof. induction d; cbn [NilEmpty.string_of_uint noSlash]; auto. Qed.

Lemma noSlash_ofNumber (n : N) : noSlash (ofNumber n) = true.
Proof.
  unfold ofNumber, NilZero.string_of_uint.
  destruct (N.to_uint n); try reflexivity; apply noSlash_digits.
Qed.

Lemma basename_uploadKey (username : string) (t : N) (name : string) :
  noSlash name = true ->
  Path.basename (Keys.uploadKey username t name) = ofNumber t +:+ "-" +:+ name.
Proof.
  intros Hname. unfold Keys.uploadKey.
  change (username +:+ "/" +:+ ofNumber t +:+ "-" +:+ name)
    with (username +:+ String slash (ofNumber t +:+ "-" +:+ name)).
  apply basename_component.
  - rewrite noSlash_append, noSlash_ofNumber. cbn [andb].
    change ("-" +:+ name) with (String "-" name). cbn [noSlash]. exact Hname.
  - destruct (ofNumber t); discriminate.
Qed.

(** For every username, time and file name without ["/"], the entry
  [GET /files] shows for the key of an upload is the time, a dash and
  the file name; put after the user's prefix, as [GET /file/:name] and
  [DELETE /file/:name] do, it gives back exactly the key of the upload. *)
Theorem listed_name_addresses_upload (username : string) (t : N) (name : string) :
  noSlash name = true ->
  Path.basename (Keys.uploadKey username t name) = ofNumber t +:+ "-" +:+ name /\
  Keys.fileKey username (Path.basename (Keys.uploadKey username t name))
    = Keys.uploadKey username t name.
Proof.
  intros Hname. rewrite (basename_uploadKey username t name Hname). now split.
Qed.

End ListedNames.

Lemma listed_name_addresses_upload_witness :
  Path.basename (Keys.uploadKey "alice" 1700000000000 "a.txt")
    = JsString.ofNumber 1700000000000 +:+ "-" +:+ "a.txt" /\
  Keys.fileKey "alice" (Path.basename (Keys.uploadKey "alice" 1700000000000 "a.txt"))
    = Keys.uploadKey "alice" 1700000000000 "a.txt".
Proof. exact (listed_name_addresses_upload "alice" 1700000000000 "a.txt" eq_refl). Defined.

(** ** What the file routes send to storage, and what they answer *)

Section RouteShape.
Import Files.
Variable BUCKET : string.

Lemma prefix_append (s t : string) : String.prefix s (s +:+ t) = true.
Proof.
  induction s as [|c s IH]; cbn [String.append].
  - now destruct t.
  - apply prefix_cons_iff. now split.
Qed.

Lemma prefix_listPrefix_fileKey (username name : string) :
  String.prefix (Keys.listPrefix username) (Keys.fileKey username name) = true.
Proof.
  unfold Keys.listPrefix, Keys.fileKey.
  rewrite <- (append_assoc username "/" name). apply prefix_append.
Qed.

Lemma prefix_listPrefix_uploadKey (username : string) (t : N) (name : string) :
  String.prefix (Keys.listPrefix username) (Keys.uploadKey username t name) = true.
Proof. apply (prefix_listPrefix_fileKey username (JsString.ofNumber t +:+ "-" +:+ name)). Qed.

Lemma prefix_refl (s : string) : String.prefix s s = true.
Proof. induction s as [|c s IH]; [reflexivity | apply prefix_cons_iff; now split]. Qed.

Lemma route_calls (r : FileRoute) (req : Request) (u : string) (be : Backend)
    (b : list (string * S3Object)) :
  user (req_session req) = Some {| su_username := u |} ->
  confined BUCKET (Keys.listPrefix u) (snd (run be (route BUCKET r req) b)) /\
  storage_calls (snd (run be (route BUCKET r req) b)) <= 1.
Proof.
  intros Hu.
  destruct r; cbn [route]; rewrite (requireLogin_passes _ _ _ Hu).
  - unfold upload_single. destruct (file_part req) as [p|].
    + destruct (fileSize <? byteLength (content p))%N; [cbn; auto|].
      unfold upload_handler, with_username. rewrite Hu. cbn [run su_username].
      destruct (be _ _ b) as [[err|[]] b1]; cbn;
        (split; [repeat split; apply prefix_listPrefix_uploadKey | lia]).
    + unfold upload_handler, with_username. rewrite Hu. cbn. auto.
  - unfold files_handler, with_username. rewrite Hu. cbn [run su_username].
    destruct (be _ _ b) as [[err|data] b1]; cbn;
      (split; [repeat split; apply prefix_refl | lia]).
  - unfold download_handler, with_username. rewrite Hu. cbn [run su_username].
    destruct (be _ _ b) as [[err|url] b1]; cbn;
      (split; [repeat split; apply prefix_listPrefix_fileKey | lia]).
  - unfold delete_handler, with_username. rewrite Hu. cbn [run su_username].
    destruct (be _ _ b) as [[err|[]] b1]; cbn;
      (split; [repeat split; apply prefix_listPrefix_fileKey | lia]).
Qed.

(** Whatever the request asks for ([:name], the file name of the part)
  and whatever the backend replies, every storage call a file route
  makes for a logged-in user names the configured bucket and addresses
  a key, or a key prefix, that starts with that user's name followed by
  ["/"]; and a request makes at most one storage call. *)
Theorem routes_confined (r : FileRoute) (req : Request) (u : string) (be : Backend)
    (b : list (string * S3Object)) :
  user (req_session req) = Some {| su_username := u |} ->
  confined BUCKET (Keys.listPrefix u) (events_of be (route BUCKET r req) b) /\
  storage_calls (events_of be (route BUCKET r req) b) <= 1.
Proof.
  intros Hu. unfold events_of.
  destruct (route_calls r req u be b Hu) as [Hconfined Hcount]. now split.
Qed.


End RouteShape.

Lemma routes_confined_witness :
  confined "bucket" (Keys.listPrefix "alice")
    (events_of (Files.bucket_backend "https://s3.example")
       (Files.route "bucket" Files.DeleteFile (plain_request "alice" "../bob/x" 1700000000000))
       one_file_bucket) /\
  storage_calls
    (events_of (Files.bucket_backend "https://s3.example")
       (Files.route "bucket" Files.DeleteFile (plain_request "alice" "../bob/x" 1700000000000))
       one_file_bucket) <= 1.
Proof.
  exact (routes_confined "bucket" Files.DeleteFile (plain_request "alice" "../bob/x" 1700000000000)
           "alice" (Files.bucket_backend "https://s3.example") one_file_bucket eq_refl).
Defined.

(** ** The bucket under upload, listing and deletion *)

Section BucketFacts.
Import Files.

Lemma compare_same (key : string) : String.compare key key = Eq.
Proof.
  induction key as [|c s IH]; cbn [String.compare]; [reflexivity|].
  unfold Ascii.compare. now rewrite N.compare_refl.
Qed.




Lemma put_holds (key : string) (o : S3Object) (b : list (string * S3Object)) :
  In key (bucket_keys (put key o b)).
Proof.
  unfold bucket_keys. induction b as [|[k o'] r IH]; cbn [put]; [now left|].
  destruct (String.compare key k); cbn; auto.
Qed.

Lemma put_put (key : string) (o1 o2 : S3Object) (b : list (string * S3Object)) :
  put key o2 (put key o1 b) = put key o2 b.
Proof.
  induction b as [|[k o] r IH]; cbn [put].
  - now rewrite compare_same.
  - destruct (String.compare key k) eqn:Hcmp; cbn [put].
    + now rewrite compare_same.
    + now rewrite compare_same.
    + now rewrite Hcmp, IH.
Qed.

Lemma remove_gone (key : string) (b : list (string * S3Object)) :
  ~ In key (bucket_keys (remove key b)).
Proof.
  unfold bucket_keys. induction b as [|[k o] r IH]; cbn [remove]; [intros []|].
  destruct (String.eqb_spec key k) as [->|Hne]; [exact IH|].
  cbn. intros [Heq|Hin]; [congruence | now apply IH].
Qed.


Lemma keys_under_remove_outside (prefix key : string) (b : list (string * S3Object)) :
  String.prefix prefix key = false ->
  keys_under prefix (remove key b) = keys_under prefix b.
Proof.
  intros Hout. induction b as [|[k o] r IH]; cbn [remove keys_under]; [reflexivity|].
  destruct (String.eqb_spec key k) as [<-|Hne]; cbn [keys_under].
  - now rewrite Hout.
  - now rewrite IH.
Qed.

End BucketFacts.

Section BucketRoutes.
Import JsString Files.
Variables (BUCKET endpoint : string).

(** What a logged-in upload with an accepted part does on the bucket. *)
Lemma upload_run (req : Request) (u : string) (p : Part) (b : list (string * S3Object)) :
  user (req_session req) = Some {| su_username := u |} ->
  file_part req = Some p -> (byteLength (content p) <= fileSize)%N ->
  run (bucket_backend endpoint) (route BUCKET PostUpload req) b
  = (res_json (success true),
     put (Keys.uploadKey u (now req) (filename p))
         {| Body := content p; ContentType := contentType p |} b,
     [Called (PutObjectCommand BUCKET (Keys.uploadKey u (now req) (filename p))
                (content p) (contentType p))]).
Proof.
  intros Hu Hp Hle. cbn [route]. rewrite (requireLogin_passes _ _ _ Hu).
  rewrite (upload_single_accepts _ p _ Hp Hle).
  unfold upload_handler, with_username. rewrite Hu. reflexivity.
Qed.

Lemma delete_run (req : Request) (u : string) (b : list (string * S3Object)) :
  user (req_session req) = Some {| su_username := u |} ->
  run (bucket_backend endpoint) (route BUCKET DeleteFile req) b
  = (res_json (success true), remove (Keys.fileKey u (params_name req)) b,
     [Called (DeleteObjectCommand BUCKET (Keys.fileKey u (params_name req)))]).
Proof.
  intros Hu. cbn [route]. rewrite (requireLogin_passes _ _ _ Hu).
  unfold delete_handler, with_username. rewrite Hu. reflexivity.
Qed.



(** Two uploads by the same user with the same file name in the same
  millisecond build the same key: the second replaces the first, and
  the bucket ends as if only the second had happened. *)
Theorem same_millisecond_upload_overwrites (up1 up2 : Request) (u : string) (p1 p2 : Part)
    (b : list (string * S3Object)) :
  user (req_session up1) = Some {| su_username := u |} ->
  user (req_session up2) = Some {| su_username := u |} ->
  file_part up1 = Some p1 -> (byteLength (content p1) <= fileSize)%N ->
  file_part up2 = Some p2 -> (byteLength (content p2) <= fileSize)%N ->
  now up1 = now up2 -> filename p1 = filename p2 ->
  answer endpoint (route BUCKET PostUpload up2)
    (bucket_after endpoint (route BUCKET PostUpload up1) b) = res_json (success true) /\
  bucket_after endpoint (route BUCKET PostUpload up2)
    (bucket_after endpoint (route BUCKET PostUpload up1) b)
  = bucket_after endpoint (route BUCKET PostUpload up2) b.
Proof.
  intros Hu1 Hu2 Hp1 Hle1 Hp2 Hle2 Hnow Hname. unfold answer, bucket_after.
  rewrite (upload_run up1 u p1 b Hu1 Hp1 Hle1).
  rewrite !(upload_run up2 u p2 _ Hu2 Hp2 Hle2). cbn [fst snd].
  split; [reflexivity|]. rewrite Hnow, Hname. apply put_put.
Qed.

(** A username may itself contain ["/"]. The key of a file uploaded by
  the user [u/v] is the key that [GET /file/:name] and
  [DELETE /file/:name] build for the user [u] and the name
  [v/<time>-<file name>]: so [DELETE] by [u] with that name removes the
  object [u/v] uploaded. *)
Theorem nested_username_reaches_upload (up del : Request) (u v : string) (p : Part)
    (b : list (string * S3Object)) :
  user (req_session up) = Some {| su_username := u +:+ "/" +:+ v |} ->
  user (req_session del) = Some {| su_username := u |} ->
  file_part up = Some p -> (byteLength (content p) <= fileSize)%N ->
  params_name del = v +:+ "/" +:+ ofNumber (now up) +:+ "-" +:+ filename p ->
  Keys.fileKey u (params_name del) = Keys.uploadKey (u +:+ "/" +:+ v) (now up) (filename p) /\
  In (Keys.uploadKey (u +:+ "/" +:+ v) (now up) (filename p))
     (bucket_keys (bucket_after endpoint (route BUCKET PostUpload up) b)) /\
  answer endpoint (route BUCKET DeleteFile del)
    (bucket_after endpoint (route BUCKET PostUpload up) b) = res_json (success true) /\
  ~ In (Keys.uploadKey (u +:+ "/" +:+ v) (now up) (filename p))
       (bucket_keys (bucket_after endpoint (route BUCKET DeleteFile del)
                       (bucket_after endpoint (route BUCKET PostUpload up) b))).
Proof.
  intros Hup Hdel Hp Hle Hname.
  assert (Hkey : Keys.fileKey u (params_name del)
                 = Keys.uploadKey (u +:+ "/" +:+ v) (now up) (filename p)).
  { rewrite Hname. unfold Keys.fileKey, Keys.uploadKey.
    now rewrite !append_assoc. }
  split; [exact Hkey|]. unfold answer, bucket_after.
  rewrite (upload_run up _ p b Hup Hp Hle). cbn [fst snd].
  rewrite (delete_run del u _ Hdel). cbn [fst snd]. rewrite Hkey.
  split; [|split; [reflexivity | apply remove_gone]].
  apply put_holds.
Qed.

(** For two different usernames that contain no ["/"], no name given to
  [GET /file/:name] or [DELETE /file/:name] by the first makes a key
  under the listing prefix of the second; so whatever the first user
  deletes, the second user's [GET /files] answers as it did before. *)
Theorem delete_outside_other_listing (del ls : Request) (u1 u2 : string)
    (b : list (string * S3Object)) :
  user (req_session del) = Some {| su_username := u1 |} ->
  user (req_session ls) = Some {| su_username := u2 |} ->
  u1 <> u2 -> noSlash u1 = true -> noSlash u2 = true ->
  (forall name : string,
     String.prefix (Keys.listPrefix u2) (Keys.fileKey u1 name) = false) /\
  answer endpoint (route BUCKET GetFiles ls)
    (bucket_after endpoint (route BUCKET DeleteFile del) b)
  = answer endpoint (route BUCKET GetFiles ls) b.
Proof.
  intros Hdel Hls Hne H1 H2.
  assert (Hout : forall name,
            String.prefix (Keys.listPrefix u2) (Keys.fileKey u1 name) = false).
  { intros name. unfold Keys.listPrefix, Keys.fileKey.
    destruct (String.prefix _ _) eqn:Hp; [|reflexivity].
    apply prefix_separated in Hp; [congruence | assumption..]. }
  split; [exact Hout|].
  unfold bucket_after. rewrite (delete_run del u1 b Hdel). cbn [fst snd].
  unfold answer. cbn [route]. rewrite (requireLogin_passes _ _ _ Hls).
  unfold files_handler, with_username. rewrite Hls.
  cbn [run bucket_backend su_username fst]. unfold list_objects.
  now rewrite (keys_under_remove_outside _ _ b (Hout (params_name del))).
Qed.

End BucketRoutes.

(** ** From login to the file routes *)

(** The identity the file routes use is the one login bound: when
  [POST /login] answers [{success:true}] for a username, every storage
  call of a file route on a request carrying the session it leaves is
  confined to that username's prefix in the configured bucket. *)
Theorem login_binds_file_routes {hasher : Bcrypt} (e : Auth.Entropy) (st : Auth.State)
    (u p : string) (BUCKET : string) (r : Files.FileRoute) (req : Files.Request)
    (be : Files.Backend) (b : list (string * Files.S3Object)) :
  fst (Auth.serve (Auth.login e {| Auth.username := u; Auth.password := p |}) st)
    = res_json (success true) ->
  Files.req_session req
    = Auth.session (snd (Auth.serve (Auth.login e {| Auth.username := u; Auth.password := p |}) st)) ->
  confined BUCKET (Keys.listPrefix u) (events_of be (Files.route BUCKET r req) b).
Proof.
  intros Hok Hcarried.
  destruct (login_run e st u p) as (st' & _ & _ & _ & [[_ Hst]|[Hko _]]); [|now destruct Hko].
  rewrite Hst in Hcarried. cbn [Auth.session] in Hcarried.
  apply (route_calls BUCKET r req u be b). now rewrite Hcarried.
Qed.

(** ** The CORS origin check *)

(** A request is admitted when it carries no origin (or an empty one) or
  when its origin is, character for character, one of the two allowed
  ones; any other origin gets the error ["CORS Not Allowed"]. Every
  admitted non-empty origin is an [https] origin. *)
Theorem cors_origin_admission (o : option string) :
  (Cors.origin o = inr true <->
   Cors.no_origin o = true \/ exists s : string, o = Some s /\ In s Cors.allowedOrigins) /\
  (Cors.origin o <> inr true -> Cors.origin o = inl (Js.Err "CORS Not Allowed")) /\
  (forall s : string,
     o = Some s -> s <> "" -> Cors.origin o = inr true -> String.prefix "https://" s = true).
Proof.
  assert (Hinc : forall s, Cors.includes Cors.allowedOrigins s = true <-> In s Cors.allowedOrigins).
  { intros s. unfold Cors.includes. rewrite existsb_exists. split.
    - intros (x & Hin & Heq). apply String.eqb_eq in Heq. now subst.
    - intros Hin. exists s. split; [exact Hin | apply String.eqb_refl]. }
  unfold Cors.origin. destruct (Cors.no_origin o) eqn:Hno.
  - split; [split; auto|]. split; [intros Hne; now destruct Hne|].
    intros s -> Hne _. cbn in Hno. apply String.eqb_eq in Hno. contradiction.
  - destruct o as [s|]; [|discriminate Hno]. change (default "" (Some s)) with s.
    destruct (Cors.includes Cors.allowedOrigins s) eqn:Hin.
    + apply Hinc in Hin. split; [split; [intros _; right; now exists s | reflexivity]|].
      split; [intros Hne; now destruct Hne|].
      intros s' [= <-] _ _. destruct Hin as [<-|[<-|[]]]; reflexivity.
    + split; [split; [discriminate|]|].
      * intros [Hc|(s' & [= <-] & Hc)]; [discriminate|].
        apply Hinc in Hc. congruence.
      * split; [reflexivity | discriminate].
Qed.

(** *** The properties above on example requests *)

Section MoreExamples.
Import Files.


Lemma same_millisecond_upload_overwrites_witness :
  answer "https://s3.example"
    (route "bucket" PostUpload (upload_request "alice" "a.txt" 1700000000000))
    (bucket_after "https://s3.example"
       (route "bucket" PostUpload (upload_request "alice" "a.txt" 1700000000000)) [])
    = res_json (success true) /\
  bucket_after "https://s3.example"
    (route "bucket" PostUpload (upload_request "alice" "a.txt" 1700000000000))
    (bucket_after "https://s3.example"
       (route "bucket" PostUpload (upload_request "alice" "a.txt" 1700000000000)) [])
  = bucket_after "https://s3.example"
      (route "bucket" PostUpload (upload_request "alice" "a.txt" 1700000000000)) [].
Proof.
  refine (same_millisecond_upload_overwrites "bucket" "https://s3.example"
            (upload_request "alice" "a.txt" 1700000000000)
            (upload_request "alice" "a.txt" 1700000000000) "alice"
            {| filename := "a.txt"; contentType := "text/plain"; content := small_buffer |}
            {| filename := "a.txt"; contentType := "text/plain"; content := small_buffer |}
            [] eq_refl eq_refl eq_refl _ eq_refl _ eq_refl eq_refl);
    vm_compute; discriminate.
Defined.

Lemma nested_username_reaches_upload_witness :
  let up := upload_request "a/b" "x.txt" 1700000000000 in
  Keys.fileKey "a" (params_name nested_delete_request)
    = Keys.uploadKey ("a" +:+ "/" +:+ "b") (now up) "x.txt" /\
  In (Keys.uploadKey ("a" +:+ "/" +:+ "b") (now up) "x.txt")
     (bucket_keys (bucket_after "https://s3.example" (route "bucket" PostUpload up) [])) /\
  answer "https://s3.example" (route "bucket" DeleteFile nested_delete_request)
    (bucket_after "https://s3.example" (route "bucket" PostUpload up) [])
    = res_json (success true) /\
  ~ In (Keys.uploadKey ("a" +:+ "/" +:+ "b") (now up) "x.txt")
       (bucket_keys (bucket_after "https://s3.example"
                       (route "bucket" DeleteFile nested_delete_request)
                       (bucket_after "https://s3.example" (route "bucket" PostUpload up) []))).
Proof.
  refine (nested_username_reaches_upload "bucket" "https://s3.example"
            (upload_request "a/b" "x.txt" 1700000000000) nested_delete_request "a" "b"
            {| filename := "x.txt"; contentType := "text/plain"; content := small_buffer |}
            [] eq_refl eq_refl eq_refl _ eq_refl).
  vm_compute. discriminate.
Defined.

Lemma login_binds_file_routes_witness :
  confined "bucket" (Keys.listPrefix "alice")
    (events_of (bucket_backend "https://s3.example")
       (route "bucket" GetFile (plain_request "alice" "1700000000000-a.txt" 1700000000002))
       one_file_bucket).
Proof.
  exact (login_binds_file_routes (hasher := plain_bcrypt) later_entropy alice_state
           "alice" "pw1" "bucket" GetFile
           (plain_request "alice" "1700000000000-a.txt" 1700000000002)
           (bucket_backend "https://s3.example") one_file_bucket eq_refl eq_refl).
Defined.

Lemma delete_outside_other_listing_witness :
  (forall name : string,
     String.prefix (Keys.listPrefix "bob") (Keys.fileKey "alice" name) = false) /\
  answer "https://s3.example"
    (route "bucket" GetFiles (plain_request "bob" "" 1700000000003))
    (bucket_after "https://s3.example" (route "bucket" DeleteFile delete_entry_request)
       one_file_bucket)
  = answer "https://s3.example"
      (route "bucket" GetFiles (plain_request "bob" "" 1700000000003)) one_file_bucket.
Proof.
  refine (delete_outside_other_listing "bucket" "https://s3.example" delete_entry_request
            (plain_request "bob" "" 1700000000003) "alice" "bob" one_file_bucket
            eq_refl eq_refl _ eq_refl eq_refl).
  discriminate.
Defined.

End MoreExamples.
